(** * swoosh: documentation generator for Python sources

    A shallow embedding of [swoosh.py] and of the standard-library
    functions it calls ([ast.walk], [ast.get_docstring], [inspect.cleandoc],
    [os.walk], [os.path.basename], [os.path.join]), followed by the
    properties of the pipeline.

    Conventions.
    - A Python [str] is a [string]; a character is an [ascii], so the
      alphabet is the 256 characters with code points 0..255.
    - Exceptions are values: a computation that can raise returns a
      [result].
    - The two lists [generate_html] mutates ([html_content] and
      [all_functions]) are threaded through a state-and-error monad. *)

From Stdlib Require Import String Ascii List Arith Bool Lia Permutation.
From Equations Require Import Equations.
Import ListNotations.
Open Scope string_scope.

Set Implicit Arguments.
Set Warnings "-register-all".

(* ===================================================================== *)
(** * Python values                                                       *)
(* ===================================================================== *)

Module Py.

(** The characters that cannot be written inside a Rocq string literal
    without escaping. *)
Definition newline : ascii := ascii_of_nat 10.
Definition tab : ascii := ascii_of_nat 9.
Definition cr : ascii := ascii_of_nat 13.
Definition nul : ascii := ascii_of_nat 0.
Definition nl : string := String newline "".
Definition dq : string := String (ascii_of_nat 34) "".

Inductive exn : Type :=
| OSError
| UnicodeDecodeError
| SyntaxError
| ValueError
| RecursionError
| TypeError.

Inductive result (A : Type) : Type :=
| Ok (a : A)
| Raise (e : exn).
Arguments Ok {A} a.
Arguments Raise {A} e.

(** The values that reach [generate_html]'s two parameters: the type
    annotations are not enforced at run time, and [main] passes a [str]
    where a list is declared and a list where a [str] is declared. *)
Inductive value : Type :=
| Str (s : string)
| StrList (l : list string).

(** [for x in v]: a list yields its items, a [str] its characters, each
    as a string of length one. *)
Fixpoint chars (s : string) : list string :=
  match s with
  | "" => []
  | String c s' => String c "" :: chars s'
  end.

Definition iter (v : value) : list string :=
  match v with
  | Str s => chars s
  | StrList l => l
  end.

(** Truth value of a [str]: non-empty. *)
Definition nonempty (s : string) : bool :=
  match s with
  | "" => false
  | _ => true
  end.

(** [x or ""] for [x : Optional[str]]. *)
Definition or_empty (x : option string) : string :=
  match x with
  | Some s => s
  | None => ""
  end.

(** [s.endswith(suffix)] *)
Definition endswith (s suffix : string) : bool :=
  (String.length suffix <=? String.length s)%nat &&
  (substring (String.length s - String.length suffix) (String.length suffix) s
   =? suffix).

(** [s.startswith(p)] *)
Definition startswith (s p : string) : bool := prefix p s.

(** [sep.join(items)] is [String.concat sep items]. *)
Definition join (sep : string) (items : list string) : string :=
  String.concat sep items.

(** [s.split('\n')]: never empty, [''.split('\n') == ['']]. *)
Fixpoint split_lines (s : string) : list string :=
  match s with
  | "" => [""]
  | String c s' =>
      if Ascii.eqb c newline then "" :: split_lines s'
      else match split_lines s' with
           | [] => [String c ""]
           | l :: ls => String c l :: ls
           end
  end.

Fixpoint spaces (n : nat) : string :=
  match n with
  | 0 => ""
  | S n' => String " " (spaces n')
  end.

(** [s.expandtabs()] with the default tab size 8: the column restarts
    after a line feed or a carriage return. *)
Fixpoint expandtabs_from (column : nat) (s : string) : string :=
  match s with
  | "" => ""
  | String c s' =>
      if Ascii.eqb c tab then
        let incr := 8 - column mod 8 in
        spaces incr ++ expandtabs_from (column + incr) s'
      else
        String c (expandtabs_from
                    (if Ascii.eqb c newline || Ascii.eqb c cr then 0
                     else S column) s')
  end.

Definition expandtabs (s : string) : string := expandtabs_from 0 s.

(** [str.isspace] on one character, for the code points 0..255: the
    characters a bare [lstrip()] removes. *)
Definition isspace (c : ascii) : bool :=
  let n := nat_of_ascii c in
  (((9 <=? n) && (n <=? 13)) || ((28 <=? n) && (n <=? 32))
   || (n =? 133) || (n =? 160))%nat.

(** [s.lstrip()] *)
Fixpoint lstrip (s : string) : string :=
  match s with
  | "" => ""
  | String c s' => if isspace c then lstrip s' else s
  end.

(** [c in s] *)
Fixpoint contains (c : ascii) (s : string) : bool :=
  match s with
  | "" => false
  | String c' s' => Ascii.eqb c' c || contains c s'
  end.

(** [s[n:]] *)
Fixpoint drop (n : nat) (s : string) : string :=
  match n, s with
  | 0, _ => s
  | S n', String _ s' => drop n' s'
  | S _, "" => ""
  end.

End Py.

(* ===================================================================== *)
(** * [inspect.cleandoc]                                                  *)
(* ===================================================================== *)

Module Inspect.
Import Py.

(** Minimum indentation of the non-blank lines; [None] stands for the
    initial [sys.maxsize]. *)
Fixpoint margin_of (lines : list string) : option nat :=
  match lines with
  | [] => None
  | line :: rest =>
      let content := String.length (lstrip line) in
      if (content =? 0)%nat then margin_of rest
      else
        let indent := String.length line - content in
        match margin_of rest with
        | None => Some indent
        | Some m => Some (Nat.min m indent)
        end
  end.

(** [while lines and not lines[0]: lines.pop(0)] *)
Fixpoint pop_leading_blank (lines : list string) : list string :=
  match lines with
  | "" :: rest => pop_leading_blank rest
  | _ => lines
  end.

(** [while lines and not lines[-1]: lines.pop()] *)
Definition pop_trailing_blank (lines : list string) : list string :=
  rev (pop_leading_blank (rev lines)).

(** [inspect.cleandoc(doc)]: expand tabs, strip the first line's leading
    white space, remove the indentation common to the later lines, drop
    trailing and leading blank lines.  (Indentation is measured with a
    bare [lstrip()], as up to Python 3.12; later versions measure spaces
    only, which differs on lines that start with other white space.) *)
Definition cleandoc (doc : string) : string :=
  match split_lines (expandtabs doc) with
  | [] => ""
  | first :: rest =>
      let rest' :=
        match margin_of rest with
        | None => rest
        | Some margin => map (drop margin) rest
        end in
      join nl (pop_leading_blank (pop_trailing_blank (lstrip first :: rest')))
  end.

End Inspect.

(* ===================================================================== *)
(** * The [ast] module                                                    *)
(* ===================================================================== *)

Module Ast.
Import Py.

(** Expressions (annotations, default values) are kept as their source
    text: Python's grammar has no statement inside an expression, so no
    function definition occurs below one. *)
Definition expr : Type := string.

(** [ast.arg] *)
Record ast_arg : Type := mk_arg {
  arg : string;
  annotation : option expr
}.

(** [ast.arguments]: the parameters of [def f(a, /, b, *c, d, **e)] are
    [posonlyargs = [a]], [args = [b]], [vararg = c], [kwonlyargs = [d]],
    [kwarg = e]. *)
Record arguments : Type := mk_arguments {
  posonlyargs : list ast_arg;
  args : list ast_arg;
  vararg : option ast_arg;
  kwonlyargs : list ast_arg;
  kw_defaults : list (option expr);
  kwarg : option ast_arg;
  defaults : list expr
}.

(** Syntax-tree nodes, as far as the program tells them apart.
    [ExprStr s] is the statement [Expr(value=Constant(value=s))] with [s]
    a [str]; [Other children] is any other node (a class, a compound or
    simple statement) with its child nodes in field order. *)
Inductive node : Type :=
| Module (body : list node)
| FunctionDef (name : string) (args : arguments) (body : list node)
| AsyncFunctionDef (name : string) (args : arguments) (body : list node)
| ExprStr (value : string)
| Other (children : list node).

(** [ast.iter_child_nodes(node)], restricted to the children that can
    hold statements. *)
Definition iter_child_nodes (n : node) : list node :=
  match n with
  | Module body => body
  | FunctionDef _ _ body => body
  | AsyncFunctionDef _ _ body => body
  | ExprStr _ => []
  | Other children => children
  end.

(** Number of nodes of a tree, and of a list of trees. *)
Fixpoint size (n : node) : nat :=
  let sizes := fix sizes (l : list node) : nat :=
    match l with
    | [] => 0
    | x :: l' => size x + sizes l'
    end in
  match n with
  | Module body => S (sizes body)
  | FunctionDef _ _ body => S (sizes body)
  | AsyncFunctionDef _ _ body => S (sizes body)
  | ExprStr _ => 1
  | Other children => S (sizes children)
  end.

Fixpoint sizes (l : list node) : nat :=
  match l with
  | [] => 0
  | x :: l' => size x + sizes l'
  end.

(** The loop of [ast.walk]:
    [while todo: node = todo.popleft(); todo.extend(iter_child_nodes(node)); yield node] *)
Equations? walk_queue (todo : list node) : list node by wf (sizes todo) lt :=
  walk_queue [] := [];
  walk_queue (n :: todo) := n :: walk_queue (todo ++ iter_child_nodes n).
Proof.
  assert (Happ : forall l1 l2, sizes (l1 ++ l2) = sizes l1 + sizes l2).
  { induction l1 as [|x l1 IH]; intros l2; simpl;
      [reflexivity | rewrite IH; lia]. }
  assert (Hn : size n = S (sizes (iter_child_nodes n)))
    by (destruct n; reflexivity).
  rewrite Happ. simpl sizes. rewrite Hn. lia.
Qed.

(** [ast.walk(node)] *)
Definition walk (n : node) : list node := walk_queue [n].

(** [ast.get_docstring(node)] with the default [clean=True]: the first
    statement of the body when it is a string literal, cleaned by
    [inspect.cleandoc]; [None] otherwise.  The program calls it on a
    [Module] and on function definitions only (on other nodes the library
    raises [TypeError]). *)
Definition get_docstring (n : node) : option string :=
  match n with
  | Module body | FunctionDef _ _ body | AsyncFunctionDef _ _ body =>
      match body with
      | ExprStr text :: _ => Some (Inspect.cleandoc text)
      | _ => None
      end
  | _ => None
  end.

(** [isinstance(node, (ast.FunctionDef, ast.AsyncFunctionDef))] *)
Definition is_function (n : node) : bool :=
  match n with
  | FunctionDef _ _ _ | AsyncFunctionDef _ _ _ => true
  | _ => false
  end.

End Ast.

(* ===================================================================== *)
(** * The [os] module and the file system                                 *)
(* ===================================================================== *)

Module Os.
Import Py.

(** [p.rfind('/') + 1]: the index just past the last separator, 0 when
    there is none. *)
Fixpoint rfind_sep_succ (p : string) : nat :=
  match p with
  | "" => 0
  | String c p' =>
      match rfind_sep_succ p' with
      | 0 => if Ascii.eqb c "/" then 1 else 0
      | S i => S (S i)
      end
  end.

(** [os.path.basename(p)]: [p[i:]] with [i = p.rfind('/') + 1]. *)
Definition basename (p : string) : string := drop (rfind_sep_succ p) p.

(** [os.path.join(a, b)] *)
Definition path_join (a b : string) : string :=
  if startswith b "/" then b
  else if negb (nonempty a) || endswith a "/" then a ++ b
  else a ++ "/" ++ b.

(** One entry of a directory as [os.scandir] lists it.  [SubDir name sub]
    is an entry whose [is_dir()] is true; [sub] is what a scan of it
    lists, [None] when that scan raises [OSError] or the entry is a
    symbolic link (which [os.walk] does not follow). *)
Inductive direntry : Type :=
| NonDir (name : string)
| SubDir (name : string) (sub : option (list direntry)).

Definition dirs_of (entries : list direntry) : list string :=
  flat_map (fun e => match e with SubDir name _ => [name] | NonDir _ => [] end)
           entries.

Definition nondirs_of (entries : list direntry) : list string :=
  flat_map (fun e => match e with NonDir name => [name] | SubDir _ _ => [] end)
           entries.

(** [os._walk(top, topdown=True, onerror=None, followlinks=False)] on a
    directory whose scan listed [entries]: yield [(top, dirs, nondirs)],
    then walk each sub-directory, in listing order, under the path
    [join(top, dirname)].  A sub-directory that cannot be scanned, or that
    is a symbolic link, yields nothing. *)
Fixpoint walk_entry (top : string) (e : direntry)
  : list (string * list string * list string) :=
  match e with
  | NonDir _ => []
  | SubDir _ None => []
  | SubDir dirname (Some entries) =>
      let new_path := path_join top dirname in
      (new_path, dirs_of entries, nondirs_of entries)
        :: flat_map (walk_entry new_path) entries
  end.

Definition walk_listing (top : string) (entries : list direntry)
  : list (string * list string * list string) :=
  (top, dirs_of entries, nondirs_of entries)
    :: flat_map (walk_entry top) entries.

(** The conversion of a [str] to a path of the operating system, which
    [os.scandir] does before anything else: a string with an embedded
    NUL is no path, and the conversion raises [ValueError]. *)
Definition fspath_check (path : string) : result unit :=
  if contains nul path then Raise ValueError else Ok tt.

(** What the program can observe of the file system.
    - [scandir top], for a [top] that is a path: the tree below [top],
      [None] when [os.scandir(top)] raises [OSError] (no such path, not a
      directory, no permission);
    - [open_r path]: [open(path, 'r')] followed by [file.read()]: the
      outer result is that of [open], the inner one that of [read] (an
      I/O or a decoding error);
    - [open_w path]: [open(path, 'w')]; the file it returns is its
      [write]: the outcome of [file.write(text)], which depends on the
      text (the encoding of the file may not have all its characters);
    - [relpath path start]: [os.path.relpath], which depends on the
      current directory. *)
Record filesystem : Type := {
  scandir : string -> option (list direntry);
  open_r : string -> result (result string);
  open_w : string -> result (string -> result unit);
  relpath : string -> string -> string
}.

(** What [os.walk(top)] yields once [top] has passed [fspath_check]: an
    [OSError] of the scan of [top] is swallowed ([onerror] is [None]) and
    nothing is yielded. *)
Definition walk (fs : filesystem) (top : string)
  : list (string * list string * list string) :=
  match scandir fs top with
  | None => []
  | Some entries => walk_listing top entries
  end.

End Os.

(* ===================================================================== *)
(** * The program                                                         *)
(* ===================================================================== *)

Module Swoosh.
Import Py.
Export Ast Os.

(** ** State and errors

    [generate_html] appends to two lists, [html_content] and
    [all_functions], and stops at the first exception. *)

(** A row of [all_functions]:
    [(relpath, func_name, param_list, func_docstring_html)]. *)
Definition row : Type := string * string * string * string.

Record state : Type := mk_state {
  html_content : list string;
  all_functions : list row
}.

Definition M (A : Type) : Type := state -> result (A * state).

Definition ret {A} (a : A) : M A := fun st => Ok (a, st).

Definition bind {A B} (c : M A) (k : A -> M B) : M B :=
  fun st =>
    match c st with
    | Ok (a, st') => k a st'
    | Raise e => Raise e
    end.

Notation "x <- c ;; k" := (bind c (fun x => k))
  (at level 61, c at next level, right associativity).
Notation "c ;; k" := (bind c (fun _ => k))
  (at level 61, right associativity).

(** A call that may raise. *)
Definition call {A} (r : result A) : M A :=
  fun st =>
    match r with
    | Ok a => Ok (a, st)
    | Raise e => Raise e
    end.

(** [html_content.append(line)] *)
Definition html_append (line : string) : M unit :=
  fun st => Ok (tt, mk_state (html_content st ++ [line]) (all_functions st)).

(** [all_functions.append(r)] *)
Definition functions_append (r : row) : M unit :=
  fun st => Ok (tt, mk_state (html_content st) (all_functions st ++ [r])).

(** [for x in items: body(x)] *)
Fixpoint for_each {A} (items : list A) (body : A -> M unit) : M unit :=
  match items with
  | [] => ret tt
  | x :: rest => body x ;; for_each rest body
  end.

(** [if cond: body] *)
Definition when (cond : bool) (body : M unit) : M unit :=
  if cond then body else ret tt.

(** ** The literal of [generate_html]'s second [append]: the style sheet
    and the script. *)
Definition head_block : string :=
  join nl [
    "";
    "    <style>";
    "        body { font-family: Arial, sans-serif; margin: 20px; }";
    "        ul, #fileTree, #functionList { list-style-type: none; padding-left: 0; }";
    "        li { margin-left: 20px; cursor: pointer; }";
    "        .nested { display: none; }";
    "        .active { display: block; }";
    "        .caret { font-weight: bold; }";
    "        .caret::before { content: " ++ dq ++ "\25B6" ++ dq ++ "; margin-right: 6px; }";
    "        .caret-down::before { content: " ++ dq ++ "\25BC" ++ dq ++ "; }";
    "        #functionList { display: none; }";
    "        .toggle-btn { margin: 20px; padding: 10px; background-color: #007BFF; color: white; border: none; cursor: pointer; }";
    "        .search-box { margin: 20px; }";
    "        #viewTitle { display: none; font-weight: bold; margin-top: 20px; }";
    "    </style>";
    "    <script>";
    "        document.addEventListener(" ++ dq ++ "DOMContentLoaded" ++ dq ++ ", function() {";
    "            var togglers = document.getElementsByClassName(" ++ dq ++ "caret" ++ dq ++ ");";
    "            for (var i = 0; i < togglers.length; i++) {";
    "                togglers[i].addEventListener(" ++ dq ++ "click" ++ dq ++ ", function() {";
    "                    this.parentElement.querySelector(" ++ dq ++ ".nested" ++ dq ++ ").classList.toggle(" ++ dq ++ "active" ++ dq ++ ");";
    "                    this.classList.toggle(" ++ dq ++ "caret-down" ++ dq ++ ");";
    "                });";
    "            }";
    "            ";
    "            // Toggle between file tree and function list views";
    "            document.getElementById(" ++ dq ++ "toggleViewBtn" ++ dq ++ ").addEventListener(" ++ dq ++ "click" ++ dq ++ ", function() {";
    "                var fileTree = document.getElementById(" ++ dq ++ "fileTree" ++ dq ++ ");";
    "                var functionList = document.getElementById(" ++ dq ++ "functionList" ++ dq ++ ");";
    "                var viewTitle = document.getElementById(" ++ dq ++ "viewTitle" ++ dq ++ ");";
    "                ";
    "                if (fileTree.style.display === " ++ dq ++ "none" ++ dq ++ ") {";
    "                    fileTree.style.display = " ++ dq ++ "block" ++ dq ++ ";";
    "                    functionList.style.display = " ++ dq ++ "none" ++ dq ++ ";";
    "                    viewTitle.style.display = " ++ dq ++ "none" ++ dq ++ ";";
    "                } else {";
    "                    fileTree.style.display = " ++ dq ++ "none" ++ dq ++ ";";
    "                    functionList.style.display = " ++ dq ++ "block" ++ dq ++ ";";
    "                    viewTitle.style.display = " ++ dq ++ "block" ++ dq ++ ";";
    "                }";
    "            });";
    "            ";
    "            // Search functionality";
    "            document.getElementById(" ++ dq ++ "searchBox" ++ dq ++ ").addEventListener(" ++ dq ++ "input" ++ dq ++ ", function() {";
    "                var query = this.value.toLowerCase();";
    "                var files = document.querySelectorAll(" ++ dq ++ "#fileTree li, #functionList li" ++ dq ++ ");";
    "                files.forEach(function(file) {";
    "                    if (file.textContent.toLowerCase().includes(query)) {";
    "                        file.style.display = " ++ dq ++ "" ++ dq ++ ";";
    "                    } else {";
    "                        file.style.display = " ++ dq ++ "none" ++ dq ++ ";";
    "                    }";
    "                });";
    "            });";
    "        });";
    "    </script>";
    "    </head><body>"
  ].

(** What a run of [generate_html] leaves behind: the file it wrote and
    the line it printed. *)
Record output : Type := mk_output {
  written_path : string;
  written_text : string;
  printed : string
}.

(** A function as [get_function_info] reports it:
    [(name, docstring, params)]. *)
Definition function_info : Type := string * string * list string.

Section Program.

(** [ast.parse(text)]: the body of the [Module] it returns, or the
    exception it raises. *)
Variable ast_parse : string -> result (list node).

Variable fs : filesystem.

(** The body of both [try] blocks: [tree = ast.parse(file.read(), ...)]. *)
Definition parse_file (file_read : result string) : result node :=
  match file_read with
  | Raise e => Raise e
  | Ok text =>
      match ast_parse text with
      | Raise e => Raise e
      | Ok body => Ok (Module body)
      end
  end.

(** [get_file_docstring(filepath)].  [open] is outside the [try] and its
    exception propagates; [file.read()] and [ast.parse] are inside it. *)
Definition get_file_docstring (filepath : string) : result string :=
  match open_r fs filepath with
  | Raise e => Raise e
  | Ok file_read =>
      match parse_file file_read with
      | Raise _ => Ok ""
      | Ok tree => Ok (or_empty (get_docstring tree))
      end
  end.

(** The body of the loop over [ast.walk(tree)]. *)
Definition scan_node (functions : list function_info) (n : node)
  : list function_info :=
  match n with
  | FunctionDef name a _ | AsyncFunctionDef name a _ =>
      let docstring := or_empty (get_docstring n) in
      let params := map arg (args a) in
      (functions ++ [(name, docstring, params)])%list
  | _ => functions
  end.

(** [get_function_info(filepath)] *)
Definition get_function_info (filepath : string) : result (list function_info) :=
  let functions := [] in
  match open_r fs filepath with
  | Raise e => Raise e
  | Ok file_read =>
      match parse_file file_read with
      | Raise _ => Ok functions
      | Ok tree => Ok (fold_left scan_node (Ast.walk tree) functions)
      end
  end.

(** ** [generate_html]: the loop bodies, innermost first. *)

Definition caret (label : string) : string :=
  "<li><span class=" ++ dq ++ "caret" ++ dq ++ ">" ++ label ++ "</span>".

Definition ul_nested : string := "<ul class=" ++ dq ++ "nested" ++ dq ++ ">".

(** [', '.join(params) if params else 'No parameters'] *)
Definition param_list_of (params : list string) : string :=
  match params with
  | [] => "No parameters"
  | _ => join ", " params
  end.

(** [func_docstring if func_docstring else 'No docstring'] *)
Definition docstring_html_of (func_docstring : string) : string :=
  if nonempty func_docstring then func_docstring else "No docstring".

(** The body of [for func_name, func_docstring, params in functions]. *)
Definition tree_function (relpath : string) (f : function_info) : M unit :=
  let '(func_name, func_docstring, params) := f in
  let param_list := param_list_of params in
  let func_docstring_html := docstring_html_of func_docstring in
  html_append (caret ("Function: " ++ func_name)) ;;
  html_append ul_nested ;;
  html_append ("<li><strong>Parameters:</strong> " ++ param_list ++ "</li>") ;;
  html_append ("<li><strong>Docstring:</strong> " ++ func_docstring_html ++ "</li>") ;;
  html_append "</ul></li>" ;;
  functions_append (relpath, func_name, param_list, func_docstring_html).

(** The body of [for file in files]. *)
Definition tree_file (directory root file : string) : M unit :=
  when (endswith file ".py") (
    let filepath := path_join root file in
    let relpath := Os.relpath fs filepath directory in
    html_append (caret relpath) ;;
    html_append ul_nested ;;
    file_docstring <- call (get_file_docstring filepath) ;;
    when (nonempty file_docstring)
      (html_append ("<li><strong>File Docstring:</strong> " ++ file_docstring ++ "</li>")) ;;
    functions <- call (get_function_info filepath) ;;
    match functions with
    | [] => ret tt
    | _ => for_each functions (tree_function relpath)
    end ;;
    html_append "</ul></li>").

(** The body of [for root, dirs, files in os.walk(directory)]. *)
Definition tree_root (directory : string)
    (t : string * list string * list string) : M unit :=
  let '(root, dirs, files) := t in
  for_each files (tree_file directory root).

(** The body of [for directory in directories].  The loop over
    [os.walk(directory)] starts with the scan of [directory], which
    raises [ValueError] when [directory] is no path. *)
Definition tree_directory (directory : string) : M unit :=
  html_append (caret (basename directory)) ;;
  html_append ul_nested ;;
  call (fspath_check directory) ;;
  for_each (Os.walk fs directory) (tree_root directory) ;;
  html_append "</ul></li>".

(** The body of [for filepath, func_name, param_list, func_docstring_html
    in all_functions]. *)
Definition flat_function (r : row) : M unit :=
  let '(filepath, func_name, param_list, func_docstring_html) := r in
  html_append ("<li><strong>" ++ func_name ++ "</strong> in <em>" ++ filepath ++ "</em>") ;;
  html_append "<ul>" ;;
  html_append ("<li><strong>Parameters:</strong> " ++ param_list ++ "</li>") ;;
  html_append ("<li><strong>Docstring:</strong> " ++ func_docstring_html ++ "</li>") ;;
  html_append "</ul></li>".

(** [generate_html] up to the last [append]. *)
Definition build_html (directories : value) : M unit :=
  html_append head_block ;;
  html_append "<h1>Project Documentation</h1>" ;;
  html_append ("<div class=" ++ dq ++ "search-box" ++ dq ++ "><input type=" ++ dq ++ "text" ++ dq ++ " id=" ++ dq ++ "searchBox" ++ dq ++ " placeholder=" ++ dq ++ "Search functions or files..." ++ dq ++ "></div>") ;;
  html_append ("<button id=" ++ dq ++ "toggleViewBtn" ++ dq ++ " class=" ++ dq ++ "toggle-btn" ++ dq ++ ">Toggle View</button>") ;;
  html_append ("<div id=" ++ dq ++ "viewTitle" ++ dq ++ "></div>") ;;
  html_append ("<ul id=" ++ dq ++ "fileTree" ++ dq ++ ">") ;;
  for_each (iter directories) tree_directory ;;
  html_append "</ul>" ;;
  html_append ("<ul id=" ++ dq ++ "functionList" ++ dq ++ ">") ;;
  html_append "<h2>Function List</h2>" ;;
  (fun st => for_each (all_functions st) flat_function st) ;;
  html_append "</ul>" ;;
  html_append "</body></html>".

(** [open(output_file, 'w')]: a list is not a path ([TypeError]); the
    result is the path with the [write] of the file. *)
Definition open_for_writing (output_file : value)
  : result (string * (string -> result unit)) :=
  match output_file with
  | StrList _ => Raise TypeError
  | Str path =>
      match open_w fs path with
      | Raise e => Raise e
      | Ok write => Ok (path, write)
      end
  end.

(** [generate_html(directories, output_file)] *)
Definition generate_html (directories output_file : value) : result output :=
  let start :=
    mk_state ["<html><head><title>Project Documentation</title>"] [] in
  match build_html directories start with
  | Raise e => Raise e
  | Ok (_, st) =>
      match open_for_writing output_file with
      | Raise e => Raise e
      | Ok (path, write) =>
          let text := join nl (html_content st) in
          match write text with
          | Raise e => Raise e
          | Ok _ =>
              Ok (mk_output path text
                            ("HTML documentation written to " ++ path))
          end
      end
  end.

(** [main()], with [argv] for [sys.argv]. *)
Definition main (argv : list string) : result output :=
  let args := skipn 1 argv in
  let dirs := args in
  let output := "documentation.html" in
  generate_html (Str output) (StrList dirs).

End Program.

End Swoosh.

(* ===================================================================== *)
(** * Reference traversals of a syntax tree                               *)
(* ===================================================================== *)

Module Traversal.
Import Py Ast.

(** Pre-order, depth-first: a node, then the pre-order of each of its
    children from left to right. *)
Fixpoint preorder (n : node) : list node :=
  let forest := fix forest (l : list node) : list node :=
    match l with
    | [] => []
    | x :: l' => (preorder x ++ forest l')%list
    end in
  match n with
  | Module body => n :: forest body
  | FunctionDef _ _ body => n :: forest body
  | AsyncFunctionDef _ _ body => n :: forest body
  | ExprStr _ => [n]
  | Other children => n :: forest children
  end.

(** Level order: the nodes of one depth from left to right, then those of
    the next depth. *)
Equations? level_order_from (level : list node) : list node
  by wf (sizes level) lt :=
  level_order_from [] := [];
  level_order_from (n :: level) :=
    n :: (level ++ level_order_from (flat_map iter_child_nodes (n :: level)))%list.
Proof.
  assert (Hn : forall x, size x = S (sizes (iter_child_nodes x)))
    by (destruct x; reflexivity).
  assert (Happ : forall l1 l2, sizes (l1 ++ l2) = sizes l1 + sizes l2).
  { induction l1 as [|x l1 IH]; intros l2; simpl;
      [reflexivity | rewrite IH; lia]. }
  assert (Hle : forall l, sizes (flat_map iter_child_nodes l) <= sizes l).
  { induction l as [|x l IH]; simpl; [lia|].
    rewrite Happ, (Hn x). lia. }
  rewrite Happ. simpl sizes. rewrite (Hn n). specialize (Hle level). lia.
Qed.

Definition level_order (n : node) : list node := level_order_from [n].

(** The report for one function definition: its name, its cleaned
    docstring or [""], and the names in [node.args.args]. *)
Definition info_of (n : node) : list (string * string * list string) :=
  match n with
  | FunctionDef name a _ | AsyncFunctionDef name a _ =>
      [(name, or_empty (get_docstring n), map arg (args a))]
  | _ => []
  end.

(** The names of all parameters that can be passed by position:
    the positional-only ones, then the positional-or-keyword ones. *)
Definition positional_names (a : arguments) : list string :=
  map arg (posonlyargs a ++ args a).

End Traversal.

(* ===================================================================== *)
(** * The pipeline as the specification describes it                      *)
(* ===================================================================== *)

(** The data model (FunctionInfo, FileEntry, DirectoryEntry), the
    Directory Walker and the HTML Renderer, written after the
    specification's words, to be compared with [Swoosh.generate_html]. *)
Module Model.
Import Py.
Import Swoosh.

Record FileEntry : Type := mk_file {
  relative_path : string;
  file_docstring : string;
  functions : list function_info
}.

Record DirectoryEntry : Type := mk_directory {
  name : string;
  files : list FileEntry
}.

(** Sequencing of computations that may fail. *)
Fixpoint traverse {A B} (f : A -> result B) (l : list A) : result (list B) :=
  match l with
  | [] => Ok []
  | x :: l' =>
      match f x with
      | Raise e => Raise e
      | Ok y =>
          match traverse f l' with
          | Raise e => Raise e
          | Ok ys => Ok (y :: ys)
          end
      end
  end.

Section Walker.

Variable ast_parse : string -> result (list node).
Variable fs : filesystem.

(** The selected files below [directory], in enumeration order, each
    with its path. *)
Definition selected (directory : string) : list string :=
  flat_map (fun t : string * list string * list string =>
              let '(root, _, files) := t in
              map (path_join root)
                  (filter (fun file => endswith file ".py") files))
           (Os.walk fs directory).

Definition file_entry (directory filepath : string) : result FileEntry :=
  match get_file_docstring ast_parse fs filepath with
  | Raise e => Raise e
  | Ok docstring =>
      match get_function_info ast_parse fs filepath with
      | Raise e => Raise e
      | Ok fns =>
          Ok (mk_file (Os.relpath fs filepath directory) docstring fns)
      end
  end.

Definition directory_entry (directory : string) : result DirectoryEntry :=
  match fspath_check directory with
  | Raise e => Raise e
  | Ok _ =>
      match traverse (file_entry directory) (selected directory) with
      | Raise e => Raise e
      | Ok entries => Ok (mk_directory (basename directory) entries)
      end
  end.

(** [walk(directories)] *)
Definition walk (directories : list string) : result (list DirectoryEntry) :=
  traverse directory_entry directories.

End Walker.

(** ** Renderer *)

(** A function in the tree view: an expandable node with a parameter
    leaf and a docstring leaf. *)
Definition function_node (f : function_info) : list string :=
  let '(func_name, docstring, params) := f in
  [ caret ("Function: " ++ func_name);
    ul_nested;
    "<li><strong>Parameters:</strong> " ++ param_list_of params ++ "</li>";
    "<li><strong>Docstring:</strong> " ++ docstring_html_of docstring ++ "</li>";
    "</ul></li>" ].

Definition file_node (f : FileEntry) : list string :=
  ([ caret (relative_path f); ul_nested ]
   ++ (if nonempty (file_docstring f)
       then [("<li><strong>File Docstring:</strong> " ++ file_docstring f
              ++ "</li>")%string]
       else [])
   ++ flat_map function_node (functions f)
   ++ [ "</ul></li>" ])%list.

Definition directory_node (d : DirectoryEntry) : list string :=
  ([ caret (name d); ul_nested ]
   ++ flat_map file_node (files d)
   ++ [ "</ul></li>" ])%list.

Definition tree_view (entries : list DirectoryEntry) : list string :=
  flat_map directory_node entries.

(** The functions of the tree view, each with its owning file, in the
    order the tree shows them. *)
Definition tree_functions (entries : list DirectoryEntry)
  : list (string * function_info) :=
  flat_map (fun d =>
    flat_map (fun f => map (pair (relative_path f)) (functions f)) (files d))
    entries.

(** A function in the flat list. *)
Definition flat_item (p : string * function_info) : list string :=
  let '(path, (func_name, docstring, params)) := p in
  [ "<li><strong>" ++ func_name ++ "</strong> in <em>" ++ path ++ "</em>";
    "<ul>";
    "<li><strong>Parameters:</strong> " ++ param_list_of params ++ "</li>";
    "<li><strong>Docstring:</strong> " ++ docstring_html_of docstring ++ "</li>";
    "</ul></li>" ].

Definition flat_view (l : list (string * function_info)) : list string :=
  flat_map flat_item l.

Definition prologue : list string :=
  [ "<html><head><title>Project Documentation</title>";
    head_block;
    "<h1>Project Documentation</h1>";
    "<div class=" ++ dq ++ "search-box" ++ dq ++ "><input type=" ++ dq ++ "text" ++ dq ++ " id=" ++ dq ++ "searchBox" ++ dq ++ " placeholder=" ++ dq ++ "Search functions or files..." ++ dq ++ "></div>";
    "<button id=" ++ dq ++ "toggleViewBtn" ++ dq ++ " class=" ++ dq ++ "toggle-btn" ++ dq ++ ">Toggle View</button>";
    "<div id=" ++ dq ++ "viewTitle" ++ dq ++ "></div>";
    "<ul id=" ++ dq ++ "fileTree" ++ dq ++ ">" ].

Definition flat_heading : list string :=
  [ "</ul>";
    "<ul id=" ++ dq ++ "functionList" ++ dq ++ ">";
    "<h2>Function List</h2>" ].

Definition epilogue : list string := [ "</ul>"; "</body></html>" ].

(** [render(directoryEntries)]: the lines of the document. *)
Definition render (entries : list DirectoryEntry) : list string :=
  (prologue ++ tree_view entries ++ flat_heading
   ++ flat_view (tree_functions entries) ++ epilogue)%list.

(** The effect of a loop body on the two lists of [generate_html]: the
    lines and rows it appends, or the exception it raises. *)
Definition effect : Type := result (list string * list row).

Definition extend (st : state) (r : effect) : result (unit * state) :=
  match r with
  | Raise e => Raise e
  | Ok (lines, rows) =>
      Ok (tt, mk_state (html_content st ++ lines) (all_functions st ++ rows))
  end.

Definition row_of (p : string * function_info) : row :=
  let '(path, (func_name, docstring, params)) := p in
  (path, func_name, param_list_of params, docstring_html_of docstring).

(** One effect after another: the first exception wins. *)
Definition then_ (r1 r2 : effect) : effect :=
  match r1 with
  | Raise e => Raise e
  | Ok (l1, f1) =>
      match r2 with
      | Raise e => Raise e
      | Ok (l2, f2) => Ok ((l1 ++ l2)%list, (f1 ++ f2)%list)
      end
  end.

Definition all_effects (rs : list effect) : effect :=
  fold_right then_ (Ok ([], [])) rs.

(** [appends c r]: from any state, [c] has the effect [r]. *)
Definition appends (c : M unit) (r : effect) : Prop :=
  forall st, c st = extend st r.

Definition function_effect (relpath : string) (f : function_info) : effect :=
  Ok (function_node f, [row_of (relpath, f)]).

Definition file_rows (f : FileEntry) : list row :=
  map (fun fn => row_of (relative_path f, fn)) (functions f).

Definition files_effect (r : result (list FileEntry)) : effect :=
  match r with
  | Raise e => Raise e
  | Ok entries => Ok (flat_map file_node entries, flat_map file_rows entries)
  end.

Definition selected_in (t : string * list string * list string) : list string :=
  let '(root, _, files) := t in
  map (path_join root) (filter (fun file => endswith file ".py") files).

Definition directories_effect (r : result (list DirectoryEntry)) : effect :=
  match r with
  | Raise e => Raise e
  | Ok entries => Ok (tree_view entries, map row_of (tree_functions entries))
  end.

Section Effects.

Variable ast_parse : string -> result (list node).
Variable fs : filesystem.

Definition file_effect (directory filepath : string) : effect :=
  files_effect
    (match file_entry ast_parse fs directory filepath with
     | Raise e => Raise e
     | Ok entry => Ok [entry]
     end).

Definition directory_effect (directory : string) : effect :=
  match directory_entry ast_parse fs directory with
  | Raise e => Raise e
  | Ok d => Ok (directory_node d, flat_map file_rows (files d))
  end.

End Effects.

End Model.

(* ===================================================================== *)
(** * A sample project                                                    *)
(* ===================================================================== *)

(** [proj/] holds [m.py], [notes.txt] and the package [pkg/] with
    [nested.py], [broken.py] (a syntax error) and [binary.py] (not
    decodable as text). *)
Module Samples.
Import Py.
Import Swoosh.

Definition tq : string := dq ++ dq ++ dq.

Definition no_arguments : arguments := mk_arguments [] [] None [] [] None [].

(** [proj/m.py] *)
Definition text_m : string :=
  join nl [ tq;
            "Module M";
            tq;
            "def add(x, y):";
            "    " ++ tq ++ "Adds two numbers" ++ tq;
            "" ].

Definition body_m : list node :=
  [ ExprStr (nl ++ "Module M" ++ nl);
    FunctionDef "add"
      (mk_arguments [] [mk_arg "x" None; mk_arg "y" None] None [] [] None [])
      [ExprStr "Adds two numbers"] ].

(** [proj/pkg/nested.py] *)
Definition text_nested : string :=
  join nl [ "def a():";
            "    def inner(p, /, q, *rest, key=None, **extra):";
            "        pass";
            "async def b():";
            "    pass";
            "" ].

Definition arguments_inner : arguments :=
  mk_arguments [mk_arg "p" None] [mk_arg "q" None] (Some (mk_arg "rest" None))
               [mk_arg "key" None] [Some "None"] (Some (mk_arg "extra" None)) [].

Definition body_nested : list node :=
  [ FunctionDef "a" no_arguments
      [FunctionDef "inner" arguments_inner [Other []]];
    AsyncFunctionDef "b" no_arguments [Other []] ].

(** [proj/pkg/broken.py] *)
Definition text_broken : string := "def (".

Definition sample_parse (text : string) : result (list node) :=
  if text =? text_m then Ok body_m
  else if text =? text_nested then Ok body_nested
  else Raise SyntaxError.

Definition listing_proj : list direntry :=
  [ NonDir "m.py";
    NonDir "notes.txt";
    SubDir "pkg" (Some [NonDir "nested.py"; NonDir "broken.py"; NonDir "binary.py"]) ].

Definition sample_open (path : string) : result (result string) :=
  if path =? "proj/m.py" then Ok (Ok text_m)
  else if path =? "proj/pkg/nested.py" then Ok (Ok text_nested)
  else if path =? "proj/pkg/broken.py" then Ok (Ok text_broken)
  else if path =? "proj/pkg/binary.py" then Ok (Raise UnicodeDecodeError)
  else if path =? "proj/notes.txt" then Ok (Ok "to do")
  else Raise OSError.

(** [os.path.relpath] for a path below [start]. *)
Definition sample_relpath (path start : string) : string :=
  if startswith path (start ++ "/") then drop (String.length start + 1) path
  else path.

Definition sample_fs : filesystem := {|
  scandir := fun top => if top =? "proj" then Some listing_proj else None;
  open_r := sample_open;
  open_w := fun _ => Ok (fun _ => Ok tt);
  relpath := sample_relpath
|}.

(** The same project later on: the notes have changed and the output of
    an earlier run lies next to the sources. *)
Definition sample_fs_later : filesystem := {|
  scandir := fun top =>
    if top =? "proj"
    then Some (NonDir "documentation.html" :: listing_proj)
    else None;
  open_r := fun path =>
    if path =? "proj/notes.txt" then Ok (Ok "done")
    else if path =? "proj/documentation.html" then Ok (Ok "<html>")
    else sample_open path;
  open_w := fun _ => Ok (fun _ => Ok tt);
  relpath := sample_relpath
|}.

End Samples.

(* ===================================================================== *)
(** * The list markup of the document                                     *)
(* ===================================================================== *)

(** The elements of [html_content] that open a list and those that close
    one, and the nesting depth they leave. *)
Module Markup.
Import Py.
Import Swoosh.

Definition opens_list (line : string) : bool :=
  (line =? ul_nested)
  || (line =? "<ul>")
  || (line =? "<ul id=" ++ dq ++ "fileTree" ++ dq ++ ">")
  || (line =? "<ul id=" ++ dq ++ "functionList" ++ dq ++ ">").

Definition closes_list (line : string) : bool :=
  (line =? "</ul></li>") || (line =? "</ul>").

(** The depth after [lines], starting at [depth]; [None] when a list is
    closed that was not opened. *)
Fixpoint nesting (depth : nat) (lines : list string) : option nat :=
  match lines with
  | [] => Some depth
  | line :: rest =>
      if opens_list line then nesting (S depth) rest
      else if closes_list line then
        match depth with
        | 0 => None
        | S d => nesting d rest
        end
      else nesting depth rest
  end.

(** [keeps lines]: [lines] closes what it opens and nothing else. *)
Definition keeps (lines : list string) : Prop :=
  forall d, nesting d lines = Some d.

End Markup.

(* ===================================================================== *)
(** * More sample file systems                                            *)
(* ===================================================================== *)

Module MoreSamples.
Import Py.
Import Swoosh.
Import Samples.


(** [lib/] holds [ok.py] and [link.py], a symbolic link whose target is
    gone: it is listed, and opening it fails. *)
Definition dangling_fs : filesystem := {|
  scandir := fun top =>
    if top =? "lib" then Some [NonDir "ok.py"; NonDir "link.py"] else None;
  open_r := fun path =>
    if path =? "lib/ok.py" then Ok (Ok text_m) else Raise OSError;
  open_w := fun _ => Ok (fun _ => Ok tt);
  relpath := sample_relpath
|}.

(** The current directory holds [setup.py], which may not be read. *)
Definition cwd_fs : filesystem := {|
  scandir := fun top =>
    if top =? "." then Some [NonDir "setup.py"] else None;
  open_r := fun _ => Raise OSError;
  open_w := fun _ => Ok (fun _ => Ok tt);
  relpath := sample_relpath
|}.

(** [proj/], named with its trailing separator, holds [m.py]. *)
Definition slash_fs : filesystem := {|
  scandir := fun top =>
    if top =? "proj/" then Some [NonDir "m.py"] else None;
  open_r := fun path =>
    if path =? "proj/m.py" then Ok (Ok text_m) else Raise OSError;
  open_w := fun _ => Ok (fun _ => Ok tt);
  relpath := fun path _ => if path =? "proj/m.py" then "m.py" else path
|}.

(** [one.py] is the single line ['''Module M'''] written with double
    quotes: a module that is its docstring. *)
Definition text_one_line : string := tq ++ "Module M" ++ tq ++ nl.

Definition one_line_parse (text : string) : result (list node) :=
  if text =? text_one_line then Ok [ExprStr "Module M"]
  else Raise SyntaxError.

Definition one_line_fs : filesystem := {|
  scandir := fun _ => None;
  open_r := fun path =>
    if path =? "one.py" then Ok (Ok text_one_line) else Raise OSError;
  open_w := fun _ => Ok (fun _ => Ok tt);
  relpath := sample_relpath
|}.

End MoreSamples.

(* ===================================================================== *)
(** * The loops of [generate_html] compute the rendering of the walk     *)
(* ===================================================================== *)

Module EffectFacts.
Import Py.
Import Swoosh.
Import Model.

Lemma appends_html line : appends (html_append line) (Ok ([line], [])).
Proof. intros [h a]. unfold html_append, extend. simpl. now rewrite app_nil_r. Qed.

Lemma appends_row r : appends (functions_append r) (Ok ([], [r])).
Proof. intros [h a]. unfold functions_append, extend. simpl. now rewrite app_nil_r. Qed.

Lemma appends_ret : appends (ret tt) (Ok ([], [])).
Proof. intros [h a]. unfold ret, extend. simpl. now rewrite !app_nil_r. Qed.

Lemma appends_bind c1 c2 r1 r2 :
  appends c1 r1 -> appends c2 r2 -> appends (c1 ;; c2) (then_ r1 r2).
Proof.
  intros H1 H2 st. unfold bind. rewrite H1.
  destruct r1 as [[l1 f1]|e]; simpl; [|reflexivity].
  rewrite H2. destruct r2 as [[l2 f2]|e]; simpl; [|reflexivity].
  now rewrite !app_assoc.
Qed.

Lemma appends_for_each {A} (body : A -> M unit) (f : A -> effect) items :
  (forall x, In x items -> appends (body x) (f x)) ->
  appends (for_each items body) (all_effects (map f items)).
Proof.
  induction items as [|x items IH]; intros H; simpl.
  - apply appends_ret.
  - apply appends_bind; [apply H; now left | apply IH].
    intros y Hy. apply H. now right.
Qed.

Lemma then_nil_l r : then_ (Ok ([], [])) r = r.
Proof. destruct r as [[l f]|e]; reflexivity. Qed.

Lemma then_nil_r r : then_ r (Ok ([], [])) = r.
Proof. destruct r as [[l f]|e]; simpl; [now rewrite !app_nil_r | reflexivity]. Qed.

Lemma then_assoc r1 r2 r3 : then_ r1 (then_ r2 r3) = then_ (then_ r1 r2) r3.
Proof.
  destruct r1 as [[l1 f1]|e1]; [|reflexivity].
  destruct r2 as [[l2 f2]|e2]; [|reflexivity].
  destruct r3 as [[l3 f3]|e3]; [|reflexivity].
  simpl. now rewrite !app_assoc.
Qed.

Lemma all_effects_app rs1 rs2 :
  all_effects (rs1 ++ rs2) = then_ (all_effects rs1) (all_effects rs2).
Proof.
  induction rs1 as [|r rs1 IH].
  - symmetry. apply then_nil_l.
  - change (then_ r (all_effects (rs1 ++ rs2))
            = then_ (then_ r (all_effects rs1)) (all_effects rs2)).
    now rewrite IH, then_assoc.
Qed.

Section Bodies.

Variable ast_parse : string -> result (list node).
Variable fs : filesystem.

Lemma appends_tree_function relpath f :
  appends (tree_function relpath f) (function_effect relpath f).
Proof.
  destruct f as [[func_name docstring] params]. intros [h a].
  unfold tree_function, function_effect, bind, html_append, functions_append,
    extend. simpl. now rewrite <- !app_assoc.
Qed.

Lemma all_function_effects relpath fns :
  all_effects (map (function_effect relpath) fns)
  = Ok (flat_map function_node fns, map (fun fn => row_of (relpath, fn)) fns).
Proof.
  induction fns as [|f fns IH]; simpl; [reflexivity|].
  rewrite IH. reflexivity.
Qed.

Lemma appends_tree_file directory root file :
  appends (tree_file ast_parse fs directory root file)
          (if endswith file ".py"
           then file_effect ast_parse fs directory (path_join root file)
           else Ok ([], [])).
Proof.
  unfold tree_file, when. destruct (endswith file ".py"); [|apply appends_ret].
  intros [h a]. unfold file_effect, file_entry, bind at 1 2 3.
  unfold html_append at 1 2. simpl.
  unfold call at 1.
  destruct (get_file_docstring ast_parse fs (path_join root file))
    as [docstring|e]; [|reflexivity].
  unfold bind at 1.
  assert (Hdoc : appends
            (if nonempty docstring
             then html_append ("<li><strong>File Docstring:</strong> " ++ docstring ++ "</li>")
             else ret tt)
            (Ok (if nonempty docstring
                 then ["<li><strong>File Docstring:</strong> " ++ docstring ++ "</li>"]
                 else [], []))).
  { destruct (nonempty docstring); [apply appends_html | apply appends_ret]. }
  rewrite Hdoc. unfold extend at 1. simpl.
  unfold bind at 1, call at 1.
  destruct (get_function_info ast_parse fs (path_join root file))
    as [fns|e]; [|reflexivity].
  unfold bind at 1.
  assert (Hfns : appends
            (match fns with
             | [] => ret tt
             | _ :: _ => for_each fns (tree_function (relpath fs (path_join root file) directory))
             end)
            (Ok (flat_map function_node fns,
                 map (fun fn => row_of (relpath fs (path_join root file) directory, fn)) fns))).
  { rewrite <- all_function_effects.
    destruct fns as [|f fns]; [apply appends_ret|].
    apply appends_for_each. intros x _. apply appends_tree_function. }
  rewrite Hfns. unfold extend at 1. simpl.
  unfold html_append, extend, file_node, file_rows. simpl.
  rewrite !app_nil_r, <- !app_assoc. simpl. reflexivity.
Qed.

Lemma files_effect_cons directory filepath rest :
  files_effect (traverse (file_entry ast_parse fs directory) (filepath :: rest))
  = then_ (file_effect ast_parse fs directory filepath)
          (files_effect (traverse (file_entry ast_parse fs directory) rest)).
Proof.
  unfold file_effect. simpl.
  destruct (file_entry ast_parse fs directory filepath) as [entry|e];
    [|reflexivity].
  destruct (traverse (file_entry ast_parse fs directory) rest) as [entries|e];
    simpl; [|reflexivity].
  now rewrite !app_nil_r.
Qed.

Lemma files_effect_app directory l1 l2 :
  files_effect (traverse (file_entry ast_parse fs directory) (l1 ++ l2))
  = then_ (files_effect (traverse (file_entry ast_parse fs directory) l1))
          (files_effect (traverse (file_entry ast_parse fs directory) l2)).
Proof.
  induction l1 as [|p l1 IH].
  - symmetry. apply then_nil_l.
  - rewrite <- app_comm_cons, !files_effect_cons, IH. apply then_assoc.
Qed.

Lemma appends_tree_root directory t :
  appends (tree_root ast_parse fs directory t)
          (files_effect (traverse (file_entry ast_parse fs directory)
                                  (selected_in t))).
Proof.
  destruct t as [[root dirs] files]. unfold tree_root, selected_in.
  intros st.
  rewrite (@appends_for_each _ _ _ files
             (fun x _ => appends_tree_file directory root x)).
  f_equal. clear st.
  induction files as [|file files IH]; [reflexivity|].
  simpl. rewrite IH. destruct (endswith file ".py").
  - simpl map. now rewrite files_effect_cons.
  - apply then_nil_l.
Qed.

Lemma appends_walk directory walked :
  appends (for_each walked (tree_root ast_parse fs directory))
          (files_effect (traverse (file_entry ast_parse fs directory)
                                  (flat_map selected_in walked))).
Proof.
  intros st.
  rewrite (@appends_for_each _ _ _ walked
             (fun x _ => appends_tree_root directory x)).
  f_equal. clear st.
  induction walked as [|t walked IH]; [reflexivity|].
  simpl. now rewrite IH, files_effect_app.
Qed.

Lemma selected_eq directory :
  selected fs directory = flat_map selected_in (Os.walk fs directory).
Proof.
  unfold selected. apply flat_map_ext. intros [[root dirs] files]. reflexivity.
Qed.

Lemma appends_tree_directory directory :
  appends (tree_directory ast_parse fs directory) (directory_effect ast_parse fs directory).
Proof.
  intros [h a]. unfold tree_directory, directory_effect, directory_entry.
  unfold bind at 1 2, html_append at 1 2. simpl.
  unfold bind at 1, call at 1.
  destruct (fspath_check directory) as [u|e]; [|reflexivity].
  unfold bind at 1. rewrite appends_walk, <- selected_eq.
  destruct (traverse (file_entry ast_parse fs directory) (selected fs directory))
    as [entries|e]; [|reflexivity].
  unfold html_append, extend, directory_node. simpl.
  now rewrite <- !app_assoc.
Qed.

Lemma file_rows_eq f :
  file_rows f = map row_of (map (pair (relative_path f)) (functions f)).
Proof. unfold file_rows. now rewrite map_map. Qed.

Lemma map_flat_map_eq {A B C} (g : B -> C) (f : A -> list B) l :
  map g (flat_map f l) = flat_map (fun x => map g (f x)) l.
Proof.
  induction l as [|x l IH]; simpl; [reflexivity|]. now rewrite map_app, IH.
Qed.

Lemma directory_rows d :
  flat_map file_rows (files d)
  = map row_of (flat_map (fun f => map (pair (relative_path f)) (functions f))
                         (files d)).
Proof.
  rewrite map_flat_map_eq. apply flat_map_ext. intros f. apply file_rows_eq.
Qed.

Lemma appends_directories directories :
  appends (for_each directories (tree_directory ast_parse fs))
          (directories_effect (walk ast_parse fs directories)).
Proof.
  intros st.
  rewrite (@appends_for_each _ _ _ directories
             (fun x _ => appends_tree_directory x)).
  f_equal. clear st. unfold walk.
  induction directories as [|d directories IH]; [reflexivity|].
  simpl. rewrite IH. unfold directory_effect.
  destruct (directory_entry ast_parse fs d) as [entry|e]; [|reflexivity].
  destruct (traverse (directory_entry ast_parse fs) directories)
    as [entries|e]; simpl; [|reflexivity].
  unfold tree_view, tree_functions. simpl.
  now rewrite map_app, directory_rows.
Qed.

Lemma appends_flat_function p :
  appends (flat_function (row_of p)) (Ok (flat_item p, [])).
Proof.
  destruct p as [path [[func_name docstring] params]]. intros [h a].
  unfold flat_function, row_of, bind, html_append, extend. simpl.
  now rewrite <- !app_assoc, app_nil_r.
Qed.

Lemma appends_flat_list l :
  appends (for_each (map row_of l) flat_function) (Ok (flat_view l, [])).
Proof.
  induction l as [|p l IH]; [apply appends_ret|].
  simpl map. simpl for_each.
  change (Ok (flat_view (p :: l), []))
    with (then_ (Ok (flat_item p, [])) (Ok (flat_view l, []))).
  apply appends_bind; [apply appends_flat_function | exact IH].
Qed.

(** [build_html] computes the rendering of the walk. *)
Lemma build_html_render directories :
  build_html ast_parse fs directories
    (mk_state ["<html><head><title>Project Documentation</title>"] [])
  = match walk ast_parse fs (iter directories) with
    | Raise e => Raise e
    | Ok entries =>
        Ok (tt, mk_state (render entries) (map row_of (tree_functions entries)))
    end.
Proof.
  unfold build_html.
  unfold bind at 1 2 3 4 5 6, html_append at 1 2 3 4 5. simpl.
  unfold bind at 1. rewrite appends_directories.
  destruct (walk ast_parse fs (iter directories)) as [entries|e];
    [|reflexivity].
  unfold extend at 1. cbv beta iota.
  unfold bind at 1 2 3, html_append at 1 2 3. simpl.
  unfold bind at 1. cbn [all_functions]. rewrite appends_flat_list. unfold extend. 
  unfold bind, html_append. simpl.
  unfold render, prologue, flat_heading, epilogue.
  rewrite <- !app_assoc, !app_nil_r. simpl. reflexivity.
Qed.

End Bodies.

End EffectFacts.

(* ===================================================================== *)
(** * The order of [ast.walk]                                             *)
(* ===================================================================== *)

Module TraversalFacts.
Import Py Ast Traversal.

Lemma preorder_eq n : preorder n = n :: flat_map preorder (iter_child_nodes n).
Proof.
  assert (H : forall l,
    (fix forest (l : list node) : list node :=
       match l with
       | [] => []
       | x :: l' => (preorder x ++ forest l')%list
       end) l = flat_map preorder l).
  { induction l as [|x l IH]; [reflexivity|]. simpl. now rewrite <- IH. }
  destruct n; simpl; rewrite ?H; reflexivity.
Qed.

(** The queue of [ast.walk] yields the pending nodes first, then what
    their children give. *)
Lemma walk_queue_app q r :
  walk_queue (q ++ r)
  = (q ++ walk_queue (r ++ flat_map iter_child_nodes q))%list.
Proof.
  revert r. induction q as [|n q IH]; intros r; simpl.
  - now rewrite app_nil_r.
  - simp walk_queue. rewrite <- app_assoc, IH, <- app_assoc. reflexivity.
Qed.

Lemma walk_queue_level_order q : walk_queue q = level_order_from q.
Proof.
  funelim (level_order_from q); [now simp walk_queue|].
  clear Heqcall. simpl flat_map. rewrite <- H.
  rewrite <- (app_nil_r (n :: level)) at 1.
  rewrite walk_queue_app. reflexivity.
Qed.

Lemma walk_queue_preorder q : Permutation (walk_queue q) (flat_map preorder q).
Proof.
  funelim (walk_queue q); [constructor|].
  simpl. rewrite preorder_eq. simpl. constructor.
  rewrite H, flat_map_app. apply Permutation_app_comm.
Qed.

Lemma walk_level_order n : Ast.walk n = level_order n.
Proof. apply walk_queue_level_order. Qed.

Lemma walk_preorder n : Permutation (Ast.walk n) (preorder n).
Proof.
  unfold Ast.walk. rewrite walk_queue_preorder. simpl. now rewrite app_nil_r.
Qed.

End TraversalFacts.

(* ===================================================================== *)
(** * Properties of the program                                           *)
(* ===================================================================== *)

Import Py.
Import Swoosh.
Import Model.
Import Traversal.
Import Samples.
Import MoreSamples.

(** Membership in a list that computes. *)
Ltac find_in_list :=
  vm_compute; repeat (first [left; reflexivity | right]).

(** ** The two scanners *)

Section Scanners.

Variable ast_parse : string -> result (list node).
Variable fs : filesystem.

Lemma fold_scan_node l acc :
  fold_left scan_node l acc = (acc ++ flat_map info_of l)%list.
Proof.
  revert acc. induction l as [|n l IH]; intros acc; simpl.
  - now rewrite app_nil_r.
  - rewrite IH. destruct n; simpl; rewrite <- ?app_assoc; reflexivity.
Qed.

Lemma get_function_info_parsed filepath text body :
  open_r fs filepath = Ok (Ok text) ->
  ast_parse text = Ok body ->
  get_function_info ast_parse fs filepath
  = Ok (flat_map info_of (Ast.walk (Module body))).
Proof.
  intros Hopen Hparse. unfold get_function_info, parse_file.
  rewrite Hopen, Hparse. now rewrite fold_scan_node.
Qed.

Lemma get_file_docstring_parsed filepath text body :
  open_r fs filepath = Ok (Ok text) ->
  ast_parse text = Ok body ->
  get_file_docstring ast_parse fs filepath
  = Ok (or_empty (get_docstring (Module body))).
Proof.
  intros Hopen Hparse. unfold get_file_docstring, parse_file.
  now rewrite Hopen, Hparse.
Qed.

(** A file that opens but whose [try] block raises contributes an entry
    without docstring and without functions, and the loop goes on. *)
Lemma failed_file_is_empty_entry directory root file file_read e rest :
  endswith file ".py" = true ->
  open_r fs (path_join root file) = Ok file_read ->
  parse_file ast_parse file_read = Raise e ->
  get_file_docstring ast_parse fs (path_join root file) = Ok "" /\
  get_function_info ast_parse fs (path_join root file) = Ok [] /\
  exists r : effect,
    (forall st,
       for_each rest (tree_file ast_parse fs directory root) st = extend st r) /\
    (forall st,
       for_each (file :: rest) (tree_file ast_parse fs directory root) st
       = extend
           (mk_state
              (html_content st
               ++ [ caret (Os.relpath fs (path_join root file) directory);
                    ul_nested;
                    "</ul></li>" ])
              (all_functions st))
           r).
Proof.
  intros Hpy Hopen Hfail.
  assert (Hdoc : get_file_docstring ast_parse fs (path_join root file) = Ok "")
    by (unfold get_file_docstring; now rewrite Hopen, Hfail).
  assert (Hfns : get_function_info ast_parse fs (path_join root file) = Ok [])
    by (unfold get_function_info; now rewrite Hopen, Hfail).
  repeat split; trivial.
  pose proof (@EffectFacts.appends_for_each _ _ _ rest
                (fun x _ => EffectFacts.appends_tree_file
                              ast_parse fs directory root x)) as Hrest.
  eexists. split; [exact Hrest|].
  intros st. simpl for_each. unfold bind at 1.
  rewrite EffectFacts.appends_tree_file, Hpy.
  unfold file_effect, file_entry. rewrite Hdoc, Hfns.
  unfold files_effect, file_node, file_rows, extend at 1. simpl.
  rewrite app_nil_r. apply Hrest.
Qed.

End Scanners.

(** ** The entry point *)


(** C1 (defect of the code).  [main] calls [generate_html(output, dirs)]
    although the parameters are [(directories, output_file)]: the
    characters of ['documentation.html'] are walked as directories and
    [open] receives the argument list.  Whatever the arguments and the
    file system, the run ends with an exception: no [documentation.html]
    is written and no confirmation line is printed. *)
Theorem main_always_raises ast_parse fs argv :
  exists e, main ast_parse fs argv = Raise e.
Proof.
  unfold main, generate_html.
  destruct (build_html ast_parse fs (Str "documentation.html") _)
    as [[u st]|e]; [|now exists e].
  exists TypeError. reflexivity.
Qed.

Example main_on_sample_project :
  main sample_parse sample_fs ["swoosh.py"; "proj"] = Raise TypeError.
Proof. vm_compute. reflexivity. Qed.

(** ** Directories that cannot be listed *)

(** A string is a path when it has no NUL. *)
Lemma contains_false c s :
  (forall c', In c' (list_ascii_of_string s) -> c' <> c) ->
  contains c s = false.
Proof.
  induction s as [|c' s IH]; intros H; [reflexivity|].
  cbn [contains]. apply orb_false_iff. split.
  - apply Ascii.eqb_neq. apply H. now left.
  - apply IH. intros c'' Hc. apply H. now right.
Qed.

Lemma fspath_check_path directory :
  (forall c, In c (list_ascii_of_string directory) -> c <> "000"%char) ->
  fspath_check directory = Ok tt.
Proof.
  intros H. unfold fspath_check.
  now rewrite (@contains_false nul directory H).
Qed.

(** [basename p] is what follows the last separator of [p]. *)
Lemma basename_is_last_component p :
  exists head,
    p = head ++ basename p /\
    (forall c, In c (list_ascii_of_string (basename p)) -> c <> "/"%char) /\
    (head = "" \/ exists h, head = h ++ "/").
Proof.
  unfold basename.
  assert (H : match rfind_sep_succ p with
              | 0 => forall c, In c (list_ascii_of_string p) -> c <> "/"%char
              | S i =>
                  exists h,
                    p = (h ++ "/") ++ drop (S i) p /\
                    (forall c, In c (list_ascii_of_string (drop (S i) p)) ->
                               c <> "/"%char)
              end).
  { induction p as [|c p IH]; [intros c []|].
    cbn [rfind_sep_succ]. destruct (rfind_sep_succ p) as [|i].
    - destruct (Ascii.eqb c "/") eqn:Hc.
      + apply Ascii.eqb_eq in Hc. subst c. exists "". split; [reflexivity|].
        exact IH.
      + apply Ascii.eqb_neq in Hc. intros c' [<-|Hin]; [exact Hc|].
        now apply IH.
    - destruct IH as [h [Hp Hno]]. exists (String c h). split; [|exact Hno].
      cbn [append drop] in *. now rewrite <- Hp. }
  destruct (rfind_sep_succ p) as [|i].
  - exists "". split; [reflexivity|]. split; [exact H | now left].
  - destruct H as [h [Hp Hno]]. exists (h ++ "/").
    split; [exact Hp|]. split; [exact Hno|]. right. now exists h.
Qed.

(** C10, as stated, fails: a string with an embedded NUL names no
    directory, and the scan of it raises [ValueError], which [os.walk]
    does not swallow: the loop body raises. *)
Lemma nul_directory_raises :
  ~ (forall ast_parse fs directory st,
       scandir fs directory = None ->
       exists st', tree_directory ast_parse fs directory st = Ok (tt, st')).
Proof.
  intros H.
  destruct (H sample_parse sample_fs (String "000" "docs") (mk_state [] [])
              eq_refl) as [st' Hrun].
  vm_compute in Hrun. discriminate Hrun.
Qed.

(** C10, amended.  When the argument is a path (it has no NUL) and its
    scan raises [OSError] (no such path, an ordinary file), [os.walk]
    yields nothing, the loop body raises nothing and appends the caret
    node labelled with the argument's basename (what follows its last
    separator) around an empty list, and the loop goes on with the
    remaining arguments. *)
Theorem scan_error_gives_empty_node ast_parse fs directory rest st
  (Hpath : forall c, In c (list_ascii_of_string directory) -> c <> "000"%char)
  (Hscan : scandir fs directory = None) :
  exists head label,
    directory = head ++ label /\
    (forall c, In c (list_ascii_of_string label) -> c <> "/"%char) /\
    (head = "" \/ exists h, head = h ++ "/") /\
    let st' :=
      mk_state
        (html_content st
         ++ [ "<li><span class=" ++ String "034" "caret" ++ String "034" ">"
                ++ label ++ "</span>";
              "<ul class=" ++ String "034" "nested" ++ String "034" ">";
              "</ul></li>" ])
        (all_functions st) in
    Os.walk fs directory = [] /\
    tree_directory ast_parse fs directory st = Ok (tt, st') /\
    for_each (directory :: rest) (tree_directory ast_parse fs) st
    = for_each rest (tree_directory ast_parse fs) st'.
Proof.
  destruct (basename_is_last_component directory) as [head [Hd [Hno Hhead]]].
  exists head, (basename directory).
  split; [exact Hd|]. split; [exact Hno|]. split; [exact Hhead|].
  assert (Hwalk : Os.walk fs directory = [])
    by (unfold Os.walk; now rewrite Hscan).
  assert (Hbody : tree_directory ast_parse fs directory st
                  = Ok (tt, mk_state
                              (html_content st
                               ++ [ caret (basename directory); ul_nested;
                                    "</ul></li>" ])
                              (all_functions st))).
  { unfold tree_directory. rewrite Hwalk, (fspath_check_path _ Hpath).
    unfold bind, html_append, for_each, ret, call. cbn [html_content all_functions].
    now rewrite <- !app_assoc. }
  cbv zeta. split; [exact Hwalk|]. split; [exact Hbody|].
  cbn [for_each]. unfold bind at 1. now rewrite Hbody.
Qed.

Lemma scan_error_witness :
  scandir sample_fs "missing/docs" = None /\
  exists head label,
    "missing/docs" = head ++ label /\
    tree_directory sample_parse sample_fs "missing/docs" (mk_state [] [])
    = Ok (tt, mk_state
                [ "<li><span class=" ++ String "034" "caret"
                    ++ String "034" ">" ++ label ++ "</span>";
                  "<ul class=" ++ String "034" "nested" ++ String "034" ">";
                  "</ul></li>" ]
                []).
Proof.
  split; [reflexivity|].
  destruct (@scan_error_gives_empty_node sample_parse sample_fs
              "missing/docs" ["proj"] (mk_state [] []))
    as [head [label [Hd [Hno [Hhead [Hwalk [Hbody _]]]]]]].
  - intros c Hc. vm_compute in Hc.
    repeat (destruct Hc as [<-|Hc]; [discriminate|]). contradiction.
  - reflexivity.
  - exists head, label. split; [exact Hd | exact Hbody].
Defined.

(** ** Files that cannot be read or parsed *)

(** C3 (defect of the code).  A selected file that cannot be read
    because [open] itself raises (no permission, a link whose target is
    gone) is not skipped: [open] stands before the [try] in both
    scanners, its exception leaves them and ends the loop over the files,
    and with it the walk. *)
Theorem open_failure_aborts_walk ast_parse fs directory root file e rest st
  (Hpy : endswith file ".py" = true)
  (Hopen : open_r fs (path_join root file) = Raise e) :
  get_file_docstring ast_parse fs (path_join root file) = Raise e /\
  get_function_info ast_parse fs (path_join root file) = Raise e /\
  for_each (file :: rest) (tree_file ast_parse fs directory root) st = Raise e.
Proof.
  assert (Hdoc : get_file_docstring ast_parse fs (path_join root file)
                 = Raise e)
    by (unfold get_file_docstring; now rewrite Hopen).
  split; [exact Hdoc|]. split.
  - unfold get_function_info. now rewrite Hopen.
  - cbn [for_each]. unfold bind at 1, tree_file, when. rewrite Hpy.
    unfold bind at 1 2 3, html_append at 1 2, call at 1. now rewrite Hdoc.
Qed.

Lemma open_failure_aborts_walk_witness :
  endswith "link.py" ".py" = true /\
  open_r dangling_fs (path_join "lib" "link.py") = Raise OSError /\
  for_each ["link.py"; "ok.py"] (tree_file sample_parse dangling_fs "lib" "lib")
           (mk_state [] [])
  = Raise OSError.
Proof.
  split; [reflexivity|]. split; [reflexivity|].
  exact (proj2 (proj2 (@open_failure_aborts_walk sample_parse dangling_fs
                         "lib" "lib" "link.py" OSError ["ok.py"]
                         (mk_state [] []) eq_refl eq_refl))).
Defined.

(** The part of the policy the code does implement: when [file.read()]
    raises (an I/O or a decoding error) for a selected file, both
    scanners return their empty result, the file contributes its entry
    with no docstring and no function, and the remaining files contribute
    what they contribute on their own. *)
Lemma read_failure_is_silent ast_parse fs directory root file e rest
  (Hpy : endswith file ".py" = true)
  (Hread : open_r fs (path_join root file) = Ok (Raise e)) :
  get_file_docstring ast_parse fs (path_join root file) = Ok "" /\
  get_function_info ast_parse fs (path_join root file) = Ok [] /\
  exists r : effect,
    (forall st,
       for_each rest (tree_file ast_parse fs directory root) st = extend st r) /\
    (forall st,
       for_each (file :: rest) (tree_file ast_parse fs directory root) st
       = extend
           (mk_state
              (html_content st
               ++ [ caret (Os.relpath fs (path_join root file) directory);
                    ul_nested;
                    "</ul></li>" ])
              (all_functions st))
           r).
Proof.
  apply (@failed_file_is_empty_entry ast_parse fs directory root file
           (Raise e) e rest Hpy Hread).
  reflexivity.
Qed.

Lemma read_failure_witness :
  endswith "binary.py" ".py" = true /\
  open_r sample_fs (path_join "proj/pkg" "binary.py")
  = Ok (Raise UnicodeDecodeError) /\
  get_file_docstring sample_parse sample_fs "proj/pkg/binary.py" = Ok "" /\
  get_function_info sample_parse sample_fs "proj/pkg/binary.py" = Ok [].
Proof.
  split; [reflexivity|]. split; [reflexivity|].
  destruct (@read_failure_is_silent sample_parse sample_fs "proj" "proj/pkg"
              "binary.py" UnicodeDecodeError [] eq_refl eq_refl)
    as [Hdoc [Hfns _]].
  split; [exact Hdoc | exact Hfns].
Defined.

(** C6.  When [ast.parse] raises on the text of a selected file, both
    scanners return their empty result and no exception leaves them, the
    file contributes its entry with no docstring and no function, and the
    remaining files contribute what they contribute on their own. *)
Theorem parse_failure_is_silent ast_parse fs directory root file text e rest
  (Hpy : endswith file ".py" = true)
  (Hread : open_r fs (path_join root file) = Ok (Ok text))
  (Hparse : ast_parse text = Raise e) :
  get_file_docstring ast_parse fs (path_join root file) = Ok "" /\
  get_function_info ast_parse fs (path_join root file) = Ok [] /\
  exists r : effect,
    (forall st,
       for_each rest (tree_file ast_parse fs directory root) st = extend st r) /\
    (forall st,
       for_each (file :: rest) (tree_file ast_parse fs directory root) st
       = extend
           (mk_state
              (html_content st
               ++ [ caret (Os.relpath fs (path_join root file) directory);
                    ul_nested;
                    "</ul></li>" ])
              (all_functions st))
           r).
Proof.
  apply (@failed_file_is_empty_entry ast_parse fs directory root file
           (Ok text) e rest Hpy Hread).
  unfold parse_file. now rewrite Hparse.
Qed.

Lemma parse_failure_witness :
  endswith "broken.py" ".py" = true /\
  open_r sample_fs (path_join "proj/pkg" "broken.py") = Ok (Ok text_broken) /\
  sample_parse text_broken = Raise SyntaxError /\
  get_file_docstring sample_parse sample_fs "proj/pkg/broken.py" = Ok "" /\
  get_function_info sample_parse sample_fs "proj/pkg/broken.py" = Ok [].
Proof.
  split; [reflexivity|]. split; [reflexivity|]. split; [reflexivity|].
  destruct (@parse_failure_is_silent sample_parse sample_fs "proj" "proj/pkg"
              "broken.py" text_broken SyntaxError ["binary.py"]
              eq_refl eq_refl eq_refl)
    as [Hdoc [Hfns _]].
  split; [exact Hdoc | exact Hfns].
Defined.

(** An [open] that raises is outside the [try] blocks: its exception
    leaves both scanners. *)
Lemma open_failure_propagates ast_parse fs filepath e :
  open_r fs filepath = Raise e ->
  get_file_docstring ast_parse fs filepath = Raise e /\
  get_function_info ast_parse fs filepath = Raise e.
Proof.
  intros Hopen. unfold get_file_docstring, get_function_info.
  now rewrite Hopen.
Qed.

(** ** Docstrings *)

(** C2, as stated, fails: the module of [proj/m.py] begins with the
    literal ["\nModule M\n"] and the extracted file docstring is
    ["Module M"]. *)
Lemma file_docstring_is_not_verbatim :
  ~ (forall ast_parse fs filepath text s rest,
       open_r fs filepath = Ok (Ok text) ->
       ast_parse text = Ok (ExprStr s :: rest) ->
       get_file_docstring ast_parse fs filepath = Ok s).
Proof.
  intros H.
  specialize (H sample_parse sample_fs "proj/m.py" text_m
                (nl ++ "Module M" ++ nl) (tl body_m) eq_refl eq_refl).
  vm_compute in H. discriminate H.
Qed.

(** C2, amended.  When a module begins with a string-literal statement,
    the file docstring is [inspect.cleandoc] of the literal's content
    (tabs expanded, the first line's leading white space stripped, the
    common indentation of the later lines removed, leading and trailing
    blank lines dropped); the same holds for the docstring reported for
    every function definition whose body begins with a string literal. *)
Theorem docstrings_are_cleaned ast_parse fs filepath text body
  (Hopen : open_r fs filepath = Ok (Ok text))
  (Hparse : ast_parse text = Ok body) :
  (forall s rest,
     body = ExprStr s :: rest ->
     get_file_docstring ast_parse fs filepath = Ok (Inspect.cleandoc s)) /\
  (forall n name a s rest,
     In n (Ast.walk (Module body)) ->
     n = FunctionDef name a (ExprStr s :: rest)
     \/ n = AsyncFunctionDef name a (ExprStr s :: rest) ->
     exists fns,
       get_function_info ast_parse fs filepath = Ok fns /\
       In (name, Inspect.cleandoc s, map arg (args a)) fns).
Proof.
  split.
  - intros s rest ->.
    now rewrite (get_file_docstring_parsed ast_parse fs filepath Hopen Hparse).
  - intros n name a s rest Hin Hn.
    rewrite (get_function_info_parsed ast_parse fs filepath Hopen Hparse).
    eexists. split; [reflexivity|].
    apply in_flat_map. exists n. split; [exact Hin|].
    destruct Hn as [-> | ->]; simpl; now left.
Qed.

Lemma docstrings_are_cleaned_witness :
  open_r sample_fs "proj/m.py" = Ok (Ok text_m) /\
  sample_parse text_m = Ok body_m /\
  get_file_docstring sample_parse sample_fs "proj/m.py" = Ok "Module M".
Proof.
  split; [reflexivity|]. split; [reflexivity|].
  exact (proj1 (@docstrings_are_cleaned sample_parse sample_fs "proj/m.py"
                  text_m body_m eq_refl eq_refl)
               (nl ++ "Module M" ++ nl) (tl body_m) eq_refl).
Defined.

(** A one-line literal without tab and without leading white space is
    its own cleaning. *)
Lemma cleandoc_one_line s :
  contains tab s = false ->
  contains newline s = false ->
  lstrip s = s ->
  Inspect.cleandoc s = s.
Proof.
  intros Htab Hnl Hstrip.
  assert (Hexp : forall column t, contains tab t = false ->
                                  expandtabs_from column t = t).
  { intros column t. revert column.
    induction t as [|c t IH]; intros column Hc; [reflexivity|].
    simpl in Hc |- *. apply orb_false_iff in Hc. destruct Hc as [Hc Ht].
    rewrite Hc. now rewrite IH. }
  assert (Hsplit : forall t, contains newline t = false -> split_lines t = [t]).
  { induction t as [|c t IH]; intros Hc; [reflexivity|].
    simpl in Hc |- *. apply orb_false_iff in Hc. destruct Hc as [Hc Ht].
    rewrite Hc. now rewrite IH. }
  unfold Inspect.cleandoc, expandtabs.
  rewrite Hexp, Hsplit by assumption.
  cbn [Inspect.margin_of]. rewrite Hstrip.
  unfold Inspect.pop_trailing_blank. cbn [rev app].
  destruct s; reflexivity.
Qed.

Example cleandoc_of_summary :
  Inspect.cleandoc "Adds two numbers" = "Adds two numbers".
Proof. now apply cleandoc_one_line. Qed.

Example cleandoc_indented :
  Inspect.cleandoc (join nl ["Adds"; "    two"; "      numbers"; "    "])
  = join nl ["Adds"; "two"; "  numbers"].
Proof. reflexivity. Qed.

(** ** The Function Scanner *)

(** C4, as stated, fails: in [proj/pkg/nested.py], [inner] is defined
    inside [a], before [b]; the scanner reports [a], [b], [inner]. *)
Lemma functions_are_not_in_preorder :
  ~ (forall ast_parse fs filepath text body,
       open_r fs filepath = Ok (Ok text) ->
       ast_parse text = Ok body ->
       get_function_info ast_parse fs filepath
       = Ok (flat_map info_of (preorder (Module body)))).
Proof.
  intros H.
  specialize (H sample_parse sample_fs "proj/pkg/nested.py" text_nested
                body_nested eq_refl eq_refl).
  vm_compute in H. discriminate H.
Qed.

(** C4, amended.  For a parsed module the scanner reports the function
    and async-function definitions in the order of [ast.walk], which is
    level order (breadth first): the definitions of one nesting depth
    from left to right, then those of the next depth.  The report is a
    rearrangement of the pre-order one: every definition, at any depth,
    is reported once. *)
Theorem functions_in_level_order ast_parse fs filepath text body
  (Hopen : open_r fs filepath = Ok (Ok text))
  (Hparse : ast_parse text = Ok body) :
  get_function_info ast_parse fs filepath
  = Ok (flat_map info_of (level_order (Module body))) /\
  Permutation (flat_map info_of (level_order (Module body)))
              (flat_map info_of (preorder (Module body))).
Proof.
  rewrite (get_function_info_parsed ast_parse fs filepath Hopen Hparse).
  rewrite TraversalFacts.walk_level_order. split; [reflexivity|].
  apply Permutation_flat_map. rewrite <- TraversalFacts.walk_level_order.
  apply TraversalFacts.walk_preorder.
Qed.

Lemma functions_in_level_order_witness :
  open_r sample_fs "proj/pkg/nested.py" = Ok (Ok text_nested) /\
  sample_parse text_nested = Ok body_nested /\
  get_function_info sample_parse sample_fs "proj/pkg/nested.py"
  = Ok (flat_map info_of (level_order (Module body_nested))).
Proof.
  split; [reflexivity|]. split; [reflexivity|].
  exact (proj1 (@functions_in_level_order sample_parse sample_fs
                  "proj/pkg/nested.py" text_nested body_nested
                  eq_refl eq_refl)).
Defined.

Example level_order_of_nested :
  flat_map info_of (level_order (Module body_nested))
  = [("a", "", []); ("b", "", []); ("inner", "", ["q"])].
Proof. reflexivity. Qed.

Example preorder_of_nested :
  flat_map info_of (preorder (Module body_nested))
  = [("a", "", []); ("inner", "", ["q"]); ("b", "", [])].
Proof. reflexivity. Qed.

(** C5, as stated, fails: [inner(p, /, q, *rest, key=None, **extra)] has
    the positional parameters [p] and [q]; the scanner records [q] only. *)
Lemma positional_only_parameters_are_dropped :
  ~ (forall ast_parse fs filepath text body name a b fns,
       open_r fs filepath = Ok (Ok text) ->
       ast_parse text = Ok body ->
       In (FunctionDef name a b) (Ast.walk (Module body)) ->
       get_function_info ast_parse fs filepath = Ok fns ->
       exists docstring, In (name, docstring, positional_names a) fns).
Proof.
  intros H.
  destruct (H sample_parse sample_fs "proj/pkg/nested.py" text_nested
              body_nested "inner" arguments_inner [Other []]
              [("a", "", []); ("b", "", []); ("inner", "", ["q"])]
              eq_refl eq_refl)
    as [docstring Hin].
  - find_in_list.
  - vm_compute. reflexivity.
  - simpl in Hin.
    destruct Hin as [Hin | [Hin | [Hin | []]]]; discriminate Hin.
Qed.

(** C5, amended.  The parameters recorded for a function definition are
    the names in [node.args.args], in order: the positional-or-keyword
    parameters.  Positional-only parameters, [*args], keyword-only
    parameters, [**kwargs], annotations and default values are not
    consulted.  Every definition in the walk is reported so, and every
    report comes from such a definition. *)
Theorem parameters_are_args_names ast_parse fs filepath text body
  (Hopen : open_r fs filepath = Ok (Ok text))
  (Hparse : ast_parse text = Ok body) :
  exists fns,
    get_function_info ast_parse fs filepath = Ok fns /\
    (forall n name a b,
       In n (Ast.walk (Module body)) ->
       n = FunctionDef name a b \/ n = AsyncFunctionDef name a b ->
       In (name, or_empty (get_docstring n), map arg (args a)) fns) /\
    (forall name docstring params,
       In (name, docstring, params) fns ->
       exists n a b,
         In n (Ast.walk (Module body)) /\
         (n = FunctionDef name a b \/ n = AsyncFunctionDef name a b) /\
         params = map arg (args a)).
Proof.
  rewrite (get_function_info_parsed ast_parse fs filepath Hopen Hparse).
  eexists. split; [reflexivity|]. split.
  - intros n name a b Hin Hn. apply in_flat_map. exists n.
    split; [exact Hin|]. destruct Hn as [-> | ->]; simpl; now left.
  - intros name docstring params Hin.
    apply in_flat_map in Hin. destruct Hin as [n [Hn Hinfo]].
    destruct n as [body'|name' a b|name' a b|value|children];
      simpl in Hinfo; try contradiction;
      destruct Hinfo as [Heq|[]]; inversion Heq; subst.
    + exists (FunctionDef name a b), a, b.
      split; [exact Hn|]. split; [now left | reflexivity].
    + exists (AsyncFunctionDef name a b), a, b.
      split; [exact Hn|]. split; [now right | reflexivity].
Qed.

Lemma parameters_are_args_names_witness :
  open_r sample_fs "proj/pkg/nested.py" = Ok (Ok text_nested) /\
  sample_parse text_nested = Ok body_nested /\
  exists fns,
    get_function_info sample_parse sample_fs "proj/pkg/nested.py" = Ok fns /\
    In ("inner", "", ["q"]) fns.
Proof.
  split; [reflexivity|]. split; [reflexivity|].
  destruct (@parameters_are_args_names sample_parse sample_fs
              "proj/pkg/nested.py" text_nested body_nested eq_refl eq_refl)
    as [fns [Hfns [Hall _]]].
  exists fns. split; [exact Hfns|].
  apply (Hall (FunctionDef "inner" arguments_inner [Other []])
              "inner" arguments_inner [Other []]).
  - find_in_list.
  - now left.
Defined.

(** ** The document *)

Lemma traverse_in {A B} (f : A -> result B) l ys x :
  traverse f l = Ok ys -> In x l -> exists y, f x = Ok y /\ In y ys.
Proof.
  revert ys. induction l as [|a l IH]; intros ys Htr Hin; [contradiction|].
  simpl in Htr. destruct (f a) as [b|e] eqn:Hfa; [|discriminate].
  destruct (traverse f l) as [bs|e]; [|discriminate].
  inversion Htr; subst. destruct Hin as [->|Hin].
  - exists b. split; [exact Hfa | now left].
  - destruct (IH bs eq_refl Hin) as [y [Hy Hiny]].
    exists y. split; [exact Hy | now right].
Qed.

Lemma traverse_ext_in {A B} (f g : A -> result B) l :
  (forall x, In x l -> f x = g x) -> traverse f l = traverse g l.
Proof.
  induction l as [|a l IH]; intros H; [reflexivity|].
  simpl. rewrite (H a (or_introl eq_refl)), IH; [reflexivity|].
  intros x Hx. apply H. now right.
Qed.

Lemma flat_map_split {A B} (f : A -> list B) l x :
  In x l -> exists l1 l2, flat_map f l = (l1 ++ f x ++ l2)%list.
Proof.
  intros Hin. destruct (in_split _ _ Hin) as [p [q ->]].
  exists (flat_map f p), (flat_map f q).
  now rewrite flat_map_app.
Qed.

(** [generate_html] writes the rendering of the walk. *)
Lemma generate_html_render ast_parse fs directories output_file :
  generate_html ast_parse fs directories output_file
  = match Model.walk ast_parse fs (iter directories) with
    | Raise e => Raise e
    | Ok entries =>
        match open_for_writing fs output_file with
        | Raise e => Raise e
        | Ok (path, write) =>
            match write (join nl (render entries)) with
            | Raise e => Raise e
            | Ok _ =>
                Ok (mk_output path (join nl (render entries))
                              ("HTML documentation written to " ++ path))
            end
        end
    end.
Proof.
  unfold generate_html. rewrite EffectFacts.build_html_render.
  destruct (Model.walk ast_parse fs (iter directories)); reflexivity.
Qed.

(** The text written is the elements of [html_content], one per line. *)
Lemma written_text_is_html_content
    ast_parse fs directories st output_file out :
  build_html ast_parse fs directories
    (mk_state ["<html><head><title>Project Documentation</title>"] [])
  = Ok (tt, st) ->
  generate_html ast_parse fs directories output_file = Ok out ->
  written_text out = String.concat (String "010" "") (html_content st).
Proof.
  intros Hbuild Hrun. unfold generate_html in Hrun. rewrite Hbuild in Hrun.
  destruct (open_for_writing fs output_file) as [[path write]|e];
    [|discriminate Hrun].
  cbv zeta in Hrun.
  destruct (write (join nl (html_content st))); [|discriminate Hrun].
  injection Hrun as <-. reflexivity.
Qed.

Lemma selected_file fs directory root dirs files file :
  In (root, dirs, files) (Os.walk fs directory) ->
  In file files ->
  endswith file ".py" = true ->
  In (path_join root file) (selected fs directory).
Proof.
  intros Hwalk Hfile Hpy. unfold selected. apply in_flat_map.
  exists (root, dirs, files). split; [exact Hwalk|].
  apply in_map, filter_In. now split.
Qed.

(** C8.  The document is the rendering of one walk: the tree view of its
    entries, then the flat list of [tree_functions], the functions of the
    file entries in the order of the tree (directories in argument order,
    files in enumeration order, functions in scanner order). *)
Theorem flat_list_follows_tree ast_parse fs directories output_file :
  generate_html ast_parse fs directories output_file
  = match Model.walk ast_parse fs (iter directories) with
    | Raise e => Raise e
    | Ok entries =>
        match open_for_writing fs output_file with
        | Raise e => Raise e
        | Ok (path, write) =>
            let text :=
              String.concat (String "010" "")
                (prologue
                 ++ tree_view entries
                 ++ flat_heading
                 ++ flat_view (tree_functions entries)
                 ++ epilogue) in
            match write text with
            | Raise e => Raise e
            | Ok _ =>
                Ok (mk_output path text
                              ("HTML documentation written to " ++ path))
            end
        end
    end
  /\ forall entries,
       map snd (tree_functions entries)
       = flat_map (fun d => flat_map functions (files d)) entries.
Proof.
  split; [apply generate_html_render|].
  intros entries. unfold tree_functions.
  rewrite EffectFacts.map_flat_map_eq. apply flat_map_ext. intros d.
  rewrite EffectFacts.map_flat_map_eq. apply flat_map_ext. intros f.
  rewrite map_map. simpl. apply map_id.
Qed.

(** C7.  Every function the scanner reports for a selected file is
    rendered twice, as a node of the tree view and, after the heading of
    the function list, as an item of the flat list; both show the
    parameter names joined with [", "], or [No parameters] when there is
    none, and the docstring, or [No docstring] when it is empty.  The
    document written is these elements, one per line. *)
Theorem functions_rendered_in_both_views
    ast_parse fs directories st
    directory root subdirs names file fns func_name func_docstring params
  (Hrun : build_html ast_parse fs directories
            (mk_state ["<html><head><title>Project Documentation</title>"] [])
          = Ok (tt, st))
  (Hdir : In directory (iter directories))
  (Hwalk : In (root, subdirs, names) (Os.walk fs directory))
  (Hfile : In file names)
  (Hpy : endswith file ".py" = true)
  (Hfns : get_function_info ast_parse fs (path_join root file) = Ok fns)
  (Hf : In (func_name, func_docstring, params) fns) :
  let param_list :=
    match params with
    | [] => "No parameters"
    | _ :: _ => String.concat ", " params
    end in
  let docstring :=
    match func_docstring with
    | "" => "No docstring"
    | _ => func_docstring
    end in
  let relpath := Os.relpath fs (path_join root file) directory in
  (exists before tree_rest flat_before after,
     html_content st
     = (before
        ++ [ ("<li><span class=" ++ String "034" "caret" ++ String "034" ">"
              ++ "Function: " ++ func_name ++ "</span>")%string;
             ("<ul class=" ++ String "034" "nested" ++ String "034" ">")%string;
             ("<li><strong>Parameters:</strong> " ++ param_list
              ++ "</li>")%string;
             ("<li><strong>Docstring:</strong> " ++ docstring
              ++ "</li>")%string;
             "</ul></li>" ]
        ++ tree_rest
        ++ [ "</ul>";
             ("<ul id=" ++ String "034" "functionList" ++ String "034" ">")%string;
             "<h2>Function List</h2>" ]
        ++ flat_before
        ++ [ ("<li><strong>" ++ func_name ++ "</strong> in <em>" ++ relpath
              ++ "</em>")%string;
             "<ul>";
             ("<li><strong>Parameters:</strong> " ++ param_list
              ++ "</li>")%string;
             ("<li><strong>Docstring:</strong> " ++ docstring
              ++ "</li>")%string;
             "</ul></li>" ]
        ++ after)%list)
  /\ forall output_file out,
       generate_html ast_parse fs directories output_file = Ok out ->
       written_text out = String.concat (String "010" "") (html_content st).
Proof.
  intros param_list docstring relpath.
  split;
    [|intros output_file out;
      exact (written_text_is_html_content _ _ _ _ Hrun)].
  rewrite EffectFacts.build_html_render in Hrun.
  destruct (Model.walk ast_parse fs (iter directories)) as [entries|e] eqn:Hw;
    [|discriminate].
  injection Hrun as <-. cbn [html_content].
  destruct (traverse_in _ _ _ Hw Hdir) as [d [Hd Hind]].
  unfold directory_entry in Hd.
  destruct (fspath_check directory); [|discriminate].
  destruct (traverse (file_entry ast_parse fs directory) (selected fs directory))
    as [entries_d|e] eqn:Hfiles; [|discriminate].
  injection Hd as <-.
  destruct (traverse_in _ _ _ Hfiles (selected_file _ _ _ _ _ _ Hwalk Hfile Hpy))
    as [f [Hentry Hinf]].
  unfold file_entry in Hentry. rewrite Hfns in Hentry.
  destruct (get_file_docstring ast_parse fs (path_join root file))
    as [file_doc|e]; [|discriminate].
  injection Hentry as <-. fold relpath in Hinf.
  (* the node in the tree view *)
  destruct (flat_map_split directory_node _ _ Hind) as [t1 [t2 Ht]].
  destruct (flat_map_split file_node _ _ Hinf) as [u1 [u2 Hu]].
  destruct (flat_map_split function_node _ _ Hf) as [v1 [v2 Hv]].
  (* the item in the flat list *)
  assert (Hflat : In (relpath, (func_name, func_docstring, params))
                     (tree_functions entries)).
  { unfold tree_functions. apply in_flat_map.
    exists (mk_directory (basename directory) entries_d).
    split; [exact Hind|]. apply in_flat_map.
    exists (mk_file relpath file_doc fns). split; [exact Hinf|].
    cbn [relative_path functions]. apply in_map. exact Hf. }
  destruct (flat_map_split flat_item _ _ Hflat) as [w1 [w2 Hw2]].
  assert (Hp : param_list_of params = param_list)
    by (destruct params; reflexivity).
  assert (Hdq : docstring_html_of func_docstring = docstring)
    by (destruct func_docstring; reflexivity).
  unfold render, tree_view, flat_view. rewrite Ht, Hw2.
  unfold directory_node. cbn [Model.files name]. rewrite Hu.
  unfold file_node. cbn [functions relative_path file_docstring]. rewrite Hv.
  unfold function_node, flat_item. rewrite Hp, Hdq.
  exists (prologue
          ++ t1
          ++ [caret (basename directory); ul_nested]
          ++ u1
          ++ [caret relpath; ul_nested]
          ++ (if nonempty file_doc
              then [("<li><strong>File Docstring:</strong> " ++ file_doc
                     ++ "</li>")%string]
              else [])
          ++ v1)%list,
         (v2 ++ ["</ul></li>"] ++ u2 ++ ["</ul></li>"] ++ t2)%list,
         w1,
         (w2 ++ epilogue)%list.
  repeat rewrite <- app_assoc. reflexivity.
Qed.

Lemma functions_rendered_witness :
  exists st,
    build_html sample_parse sample_fs (StrList ["proj"])
      (mk_state ["<html><head><title>Project Documentation</title>"] [])
    = Ok (tt, st) /\
    exists before tree_rest flat_before after,
      html_content st
      = (before
         ++ [ ("<li><span class=" ++ String "034" "caret" ++ String "034" ">"
               ++ "Function: add</span>")%string;
              ("<ul class=" ++ String "034" "nested" ++ String "034" ">")%string;
              "<li><strong>Parameters:</strong> x, y</li>";
              "<li><strong>Docstring:</strong> Adds two numbers</li>";
              "</ul></li>" ]
         ++ tree_rest
         ++ [ "</ul>";
              ("<ul id=" ++ String "034" "functionList" ++ String "034" ">")%string;
              "<h2>Function List</h2>" ]
         ++ flat_before
         ++ [ "<li><strong>add</strong> in <em>m.py</em>";
              "<ul>";
              "<li><strong>Parameters:</strong> x, y</li>";
              "<li><strong>Docstring:</strong> Adds two numbers</li>";
              "</ul></li>" ]
         ++ after)%list.
Proof.
  destruct (build_html sample_parse sample_fs (StrList ["proj"])
              (mk_state ["<html><head><title>Project Documentation</title>"] []))
    as [[[] st]|e] eqn:Hrun; [|vm_compute in Hrun; discriminate Hrun].
  exists st. split; [reflexivity|].
  apply (@functions_rendered_in_both_views sample_parse sample_fs
           (StrList ["proj"]) st
           "proj" "proj" ["pkg"] ["m.py"; "notes.txt"] "m.py"
           [("add", "Adds two numbers", ["x"; "y"])]
           "add" "Adds two numbers" ["x"; "y"] Hrun).
  - now left.
  - now left.
  - now left.
  - reflexivity.
  - reflexivity.
  - now left.
Defined.

(** ** Determinism *)

Lemma scanners_ext ast_parse fs1 fs2 filepath :
  open_r fs1 filepath = open_r fs2 filepath ->
  get_file_docstring ast_parse fs1 filepath
  = get_file_docstring ast_parse fs2 filepath /\
  get_function_info ast_parse fs1 filepath
  = get_function_info ast_parse fs2 filepath.
Proof.
  intros H. unfold get_file_docstring, get_function_info.
  now rewrite H.
Qed.

(** C9.  The result of [generate_html] is determined by what the run
    reads: two file systems that present the same selected files in the
    same order below each directory, with the same content and the same
    relative paths, and that agree on the output path, give the same
    result, the same document byte for byte or the same exception. *)
Theorem generate_html_deterministic
    ast_parse fs1 fs2 directories output_file
  (Hsel : forall d, In d (iter directories) ->
            selected fs1 d = selected fs2 d)
  (Hfiles : forall d p, In d (iter directories) -> In p (selected fs1 d) ->
              open_r fs1 p = open_r fs2 p /\
              Os.relpath fs1 p d = Os.relpath fs2 p d)
  (Hout : open_for_writing fs1 output_file = open_for_writing fs2 output_file) :
  generate_html ast_parse fs1 directories output_file
  = generate_html ast_parse fs2 directories output_file.
Proof.
  rewrite !generate_html_render, Hout.
  replace (Model.walk ast_parse fs2 (iter directories))
    with (Model.walk ast_parse fs1 (iter directories)); [reflexivity|].
  unfold Model.walk. apply traverse_ext_in. intros d Hd.
  unfold directory_entry. rewrite <- (Hsel d Hd).
  replace (traverse (file_entry ast_parse fs2 d) (selected fs1 d))
    with (traverse (file_entry ast_parse fs1 d) (selected fs1 d));
    [reflexivity|].
  apply traverse_ext_in. intros p Hp.
  destruct (Hfiles d p Hd Hp) as [Hopen Hrel].
  destruct (scanners_ext ast_parse fs1 fs2 p Hopen) as [Hdoc Hfns].
  unfold file_entry. now rewrite Hdoc, Hfns, Hrel.
Qed.

Lemma generate_html_deterministic_witness :
  generate_html sample_parse sample_fs (StrList ["proj"])
                (Str "documentation.html")
  = generate_html sample_parse sample_fs_later (StrList ["proj"])
                  (Str "documentation.html").
Proof.
  apply generate_html_deterministic.
  - intros d [<-|[]]. reflexivity.
  - intros d p [<-|[]] Hp. vm_compute in Hp.
    destruct Hp as [<-|[<-|[<-|[<-|[]]]]]; split; reflexivity.
  - reflexivity.
Defined.

(* ===================================================================== *)
(** * Further properties                                                  *)
(* ===================================================================== *)

Import Markup.
Import MoreSamples.

(** ** Exceptions *)

Lemma scanner_raises ast_parse fs filepath e :
  get_file_docstring ast_parse fs filepath = Raise e
  \/ get_function_info ast_parse fs filepath = Raise e ->
  open_r fs filepath = Raise e.
Proof.
  unfold get_file_docstring, get_function_info.
  destruct (open_r fs filepath) as [file_read|e0].
  - destruct (parse_file ast_parse file_read); intros [H|H]; discriminate H.
  - intros [H|H]; injection H as ->; reflexivity.
Qed.

(** X1.  The only exception that leaves [get_file_docstring] and
    [get_function_info] is the one [open] raises: each of them raises [e]
    exactly when [open(filepath, 'r')] raises [e]; whatever [file.read()]
    and [ast.parse] raise is swallowed. *)
Theorem scanners_raise_iff_open_raises ast_parse fs filepath e :
  (get_file_docstring ast_parse fs filepath = Raise e
   <-> open_r fs filepath = Raise e) /\
  (get_function_info ast_parse fs filepath = Raise e
   <-> open_r fs filepath = Raise e).
Proof.
  split; split; intros H.
  - apply (@scanner_raises ast_parse fs filepath e). now left.
  - unfold get_file_docstring. now rewrite H.
  - apply (@scanner_raises ast_parse fs filepath e). now right.
  - unfold get_function_info. now rewrite H.
Qed.

Lemma traverse_raises {A B} (f : A -> result B) l x e :
  In x l -> f x = Raise e ->
  exists y e', In y l /\ f y = Raise e' /\ traverse f l = Raise e'.
Proof.
  induction l as [|a l IH]; intros Hin Hx; [contradiction|].
  simpl. destruct (f a) as [b|e0] eqn:Hfa.
  - destruct Hin as [->|Hin]; [congruence|].
    destruct (IH Hin Hx) as [y [e' [Hy [Hfy Htr]]]].
    exists y, e'. rewrite Htr. repeat split; [now right | exact Hfy].
  - exists a, e0. repeat split; [now left | exact Hfa].
Qed.

Lemma traverse_raise_inv {A B} (f : A -> result B) l e :
  traverse f l = Raise e -> exists y, In y l /\ f y = Raise e.
Proof.
  induction l as [|a l IH]; simpl; [discriminate|].
  destruct (f a) as [b|e0] eqn:Hfa.
  - destruct (traverse f l) as [bs|e1]; [discriminate|].
    intros H. injection H as ->. destruct (IH eq_refl) as [y [Hy Hfy]].
    exists y. split; [now right | exact Hfy].
  - intros H. injection H as ->. exists a. split; [now left | exact Hfa].
Qed.


Lemma file_entry_raises ast_parse fs directory filepath e :
  file_entry ast_parse fs directory filepath = Raise e ->
  open_r fs filepath = Raise e.
Proof.
  unfold file_entry. intros H. apply (@scanner_raises ast_parse fs filepath e).
  destruct (get_file_docstring ast_parse fs filepath) as [d|e0].
  - destruct (get_function_info ast_parse fs filepath) as [fns|e1];
      [discriminate H | right; injection H as ->; reflexivity].
  - left. injection H as ->. reflexivity.
Qed.


Lemma directory_entry_raises ast_parse fs directory e :
  fspath_check directory = Ok tt ->
  directory_entry ast_parse fs directory = Raise e ->
  exists filepath, In filepath (selected fs directory)
                   /\ open_r fs filepath = Raise e.
Proof.
  unfold directory_entry. intros Hpath H. rewrite Hpath in H.
  destruct (traverse (file_entry ast_parse fs directory) (selected fs directory))
    as [entries|e0] eqn:Htr; [discriminate H|].
  injection H as ->. destruct (traverse_raise_inv _ _ Htr) as [p [Hp Hfp]].
  exists p. split; [exact Hp | exact (file_entry_raises _ _ _ _ Hfp)].
Qed.

Lemma endswith_app a b suffix :
  endswith b suffix = true -> endswith (a ++ b) suffix = true.
Proof.
  unfold endswith. intros H. apply andb_true_iff in H. destruct H as [Hle Heq].
  apply Nat.leb_le in Hle.
  assert (Hlen : forall x y, String.length (x ++ y)
                             = String.length x + String.length y).
  { induction x as [|c x IH]; intros y; simpl; [reflexivity | now rewrite IH]. }
  assert (Hsub : forall x k m y,
            substring (String.length x + k) m (x ++ y) = substring k m y).
  { induction x as [|c x IH]; intros k m y; simpl; [reflexivity | apply IH]. }
  apply andb_true_iff. split.
  - apply Nat.leb_le. rewrite Hlen. lia.
  - rewrite Hlen.
    replace (String.length a + String.length b - String.length suffix)
      with (String.length a + (String.length b - String.length suffix)) by lia.
    now rewrite Hsub.
Qed.

Lemma path_join_endswith root file suffix :
  endswith file suffix = true -> endswith (path_join root file) suffix = true.
Proof.
  intros H. unfold path_join. destruct (startswith file "/"); [exact H|].
  destruct (negb (nonempty root) || endswith root "/").
  - now apply endswith_app.
  - apply endswith_app. now apply endswith_app.
Qed.

Lemma selected_inv fs directory filepath :
  In filepath (selected fs directory) ->
  exists root subdirs names file,
    In (root, subdirs, names) (Os.walk fs directory) /\
    In file names /\
    endswith file ".py" = true /\
    filepath = path_join root file.
Proof.
  unfold selected. intros H. apply in_flat_map in H.
  destruct H as [[[root subdirs] names] [Hw Hin]].
  apply in_map_iff in Hin. destruct Hin as [file [<- Hf]].
  apply filter_In in Hf. destruct Hf as [Hf Hpy].
  now exists root, subdirs, names, file.
Qed.

Lemma selected_endswith fs directory filepath :
  In filepath (selected fs directory) -> endswith filepath ".py" = true.
Proof.
  intros H. destruct (selected_inv _ _ _ H)
    as [root [subdirs [names [file [_ [_ [Hpy ->]]]]]]].
  now apply path_join_endswith.
Qed.

Lemma unopenable_file_raises
    ast_parse fs directories output_file directory root subdirs names file e :
  (forall d, In d (iter directories) -> fspath_check d = Ok tt) ->
  In directory (iter directories) ->
  In (root, subdirs, names) (Os.walk fs directory) ->
  In file names ->
  endswith file ".py" = true ->
  open_r fs (path_join root file) = Raise e ->
  exists filepath e',
    endswith filepath ".py" = true /\
    open_r fs filepath = Raise e' /\
    generate_html ast_parse fs directories output_file = Raise e'.
Proof.
  intros Hpaths Hdir Hwalk Hfile Hpy Hopen.
  pose proof (selected_file fs directory root subdirs names file
                Hwalk Hfile Hpy) as Hsel.
  assert (Hentry : file_entry ast_parse fs directory (path_join root file)
                   = Raise e).
  { unfold file_entry, get_file_docstring. now rewrite Hopen. }
  destruct (traverse_raises _ _ _ Hsel Hentry) as [p [e1 [_ [_ Htr]]]].
  assert (Hd : directory_entry ast_parse fs directory = Raise e1)
    by (unfold directory_entry; now rewrite (Hpaths _ Hdir), Htr).
  destruct (traverse_raises _ _ _ Hdir Hd) as [d [e' [Hind [Hd' Hw]]]].
  destruct (directory_entry_raises _ _ _ (Hpaths _ Hind) Hd')
    as [filepath [Hin Hfail]].
  exists filepath, e'. split; [exact (selected_endswith _ _ _ Hin)|].
  split; [exact Hfail|].
  rewrite generate_html_render. unfold Model.walk. now rewrite Hw.
Qed.

(** X2.  A selected file that cannot be opened aborts the run: when the
    directory arguments are paths (no NUL) and [open] raises for a [.py]
    file below one of them, [generate_html] raises the exception of such
    an [open] and writes nothing, whatever the other files are. *)
Theorem unopenable_file_aborts_run
    ast_parse fs directories output_file directory root subdirs names file e
  (Hpaths : forall d c, In d (iter directories) ->
              In c (list_ascii_of_string d) -> c <> "000"%char)
  (Hdir : In directory (iter directories))
  (Hwalk : In (root, subdirs, names) (Os.walk fs directory))
  (Hfile : In file names)
  (Hpy : endswith file ".py" = true)
  (Hopen : open_r fs (path_join root file) = Raise e) :
  exists filepath e',
    endswith filepath ".py" = true /\
    open_r fs filepath = Raise e' /\
    generate_html ast_parse fs directories output_file = Raise e'.
Proof.
  apply (@unopenable_file_raises ast_parse fs directories output_file
           directory root subdirs names file e); trivial.
  intros d Hd. apply fspath_check_path. intros c. exact (Hpaths d c Hd).
Qed.

Lemma unopenable_file_witness :
  In "lib" (iter (StrList ["lib"])) /\
  In ("lib", [], ["ok.py"; "link.py"]) (Os.walk dangling_fs "lib") /\
  open_r dangling_fs (path_join "lib" "link.py") = Raise OSError /\
  exists filepath e',
    endswith filepath ".py" = true /\
    open_r dangling_fs filepath = Raise e' /\
    generate_html sample_parse dangling_fs (StrList ["lib"])
                  (Str "documentation.html") = Raise e'.
Proof.
  split; [now left|]. split; [now left|]. split; [reflexivity|].
  apply (@unopenable_file_aborts_run sample_parse dangling_fs
           (StrList ["lib"]) (Str "documentation.html")
           "lib" "lib" [] ["ok.py"; "link.py"] "link.py" OSError).
  - intros d c [<-|[]] Hc. vm_compute in Hc.
    repeat (destruct Hc as [<-|Hc]; [discriminate|]). contradiction.
  - now left.
  - now left.
  - right. now left.
  - reflexivity.
  - reflexivity.
Defined.



(** X4.  The command-line arguments have no effect: [main] gives the same
    outcome for every argument list, because the list only reaches
    [open], which rejects it for being a list. *)
Theorem main_ignores_arguments ast_parse fs argv argv' :
  main ast_parse fs argv = main ast_parse fs argv'.
Proof.
  unfold main, generate_html.
  destruct (build_html ast_parse fs (Str "documentation.html") _)
    as [[u st]|e]; reflexivity.
Qed.

(** X8.  [main] takes each character of ['documentation.html'] for a
    directory, among them ['.'], the current directory: a [.py] file below
    one of them that cannot be opened makes [main] raise the exception of
    such an [open]. *)
Theorem main_walks_the_characters
    ast_parse fs argv directory root subdirs names file e
  (Hchar : In directory (chars "documentation.html"))
  (Hwalk : In (root, subdirs, names) (Os.walk fs directory))
  (Hfile : In file names)
  (Hpy : endswith file ".py" = true)
  (Hopen : open_r fs (path_join root file) = Raise e) :
  exists filepath e',
    endswith filepath ".py" = true /\
    open_r fs filepath = Raise e' /\
    main ast_parse fs argv = Raise e'.
Proof.
  unfold main.
  apply (@unopenable_file_raises ast_parse fs (Str "documentation.html")
           (StrList (skipn 1 argv)) directory root subdirs names file e);
    trivial.
  intros d Hd. vm_compute in Hd.
  repeat (destruct Hd as [<-|Hd]; [reflexivity|]). contradiction.
Qed.

Lemma main_walks_the_characters_witness :
  In "." (chars "documentation.html") /\
  In (".", [], ["setup.py"]) (Os.walk cwd_fs ".") /\
  open_r cwd_fs (path_join "." "setup.py") = Raise OSError /\
  exists filepath e',
    endswith filepath ".py" = true /\
    open_r cwd_fs filepath = Raise e' /\
    main sample_parse cwd_fs ["swoosh.py"; "proj"] = Raise e'.
Proof.
  split; [find_in_list|]. split; [now left|]. split; [reflexivity|].
  apply (@main_walks_the_characters sample_parse cwd_fs ["swoosh.py"; "proj"]
           "." "." [] ["setup.py"] "setup.py" OSError).
  - find_in_list.
  - now left.
  - now left.
  - reflexivity.
  - reflexivity.
Defined.

(** ** Directories without Python sources *)




(** ** The node of a file *)

Lemma length_function_nodes fns :
  List.length (flat_map function_node fns) = 5 * List.length fns.
Proof.
  induction fns as [|[[func_name docstring] params] fns IH]; [reflexivity|].
  cbn [flat_map]. rewrite length_app, IH. cbn [function_node List.length]. lia.
Qed.

(** X6.  In the tree view, a selected file is the caret node of its
    relative path, then, only when its docstring is not empty, the
    [File Docstring] leaf with the docstring as it is (no character is
    escaped), then five elements for each of its functions, then the
    closing element. *)
Theorem file_node_in_tree
    ast_parse fs directories st
    directory root subdirs names file file_docstring fns
  (Hrun : build_html ast_parse fs directories
            (mk_state ["<html><head><title>Project Documentation</title>"] [])
          = Ok (tt, st))
  (Hdir : In directory (iter directories))
  (Hwalk : In (root, subdirs, names) (Os.walk fs directory))
  (Hfile : In file names)
  (Hpy : endswith file ".py" = true)
  (Hdoc : get_file_docstring ast_parse fs (path_join root file)
          = Ok file_docstring)
  (Hfns : get_function_info ast_parse fs (path_join root file) = Ok fns) :
  exists before function_nodes after,
    html_content st
    = (before
       ++ [ ("<li><span class=" ++ String "034" "caret" ++ String "034" ">"
             ++ Os.relpath fs (path_join root file) directory
             ++ "</span>")%string;
            ("<ul class=" ++ String "034" "nested" ++ String "034" ">")%string ]
       ++ match file_docstring with
          | "" => []
          | _ => [ ("<li><strong>File Docstring:</strong> "
                    ++ file_docstring ++ "</li>")%string ]
          end
       ++ function_nodes
       ++ [ "</ul></li>" ]
       ++ after)%list
    /\ List.length function_nodes = 5 * List.length fns.
Proof.
  rewrite EffectFacts.build_html_render in Hrun.
  destruct (Model.walk ast_parse fs (iter directories)) as [entries|e] eqn:Hw;
    [|discriminate].
  injection Hrun as <-. cbn [html_content].
  destruct (traverse_in _ _ _ Hw Hdir) as [d [Hd Hind]].
  unfold directory_entry in Hd.
  destruct (fspath_check directory); [|discriminate].
  destruct (traverse (file_entry ast_parse fs directory) (selected fs directory))
    as [entries_d|e] eqn:Hfiles; [|discriminate].
  injection Hd as <-.
  destruct (traverse_in _ _ _ Hfiles (selected_file _ _ _ _ _ _ Hwalk Hfile Hpy))
    as [f [Hentry Hinf]].
  unfold file_entry in Hentry. rewrite Hdoc, Hfns in Hentry.
  injection Hentry as <-.
  destruct (flat_map_split directory_node _ _ Hind) as [t1 [t2 Ht]].
  destruct (flat_map_split file_node _ _ Hinf) as [u1 [u2 Hu]].
  unfold render, tree_view. rewrite Ht.
  unfold directory_node. cbn [Model.files name]. rewrite Hu.
  unfold file_node. cbn [functions relative_path Model.file_docstring].
  exists (prologue ++ t1 ++ [caret (basename directory); ul_nested] ++ u1)%list,
         (flat_map function_node fns),
         (u2 ++ ["</ul></li>"] ++ t2 ++ flat_heading
          ++ flat_view (tree_functions entries) ++ epilogue)%list.
  split; [|apply length_function_nodes].
  destruct file_docstring; cbn [nonempty];
    repeat rewrite <- app_assoc; reflexivity.
Qed.

Lemma file_node_in_tree_witness :
  exists st,
    build_html sample_parse sample_fs (StrList ["proj"])
      (mk_state ["<html><head><title>Project Documentation</title>"] [])
    = Ok (tt, st) /\
    exists before function_nodes after,
      html_content st
      = (before
         ++ [ ("<li><span class=" ++ String "034" "caret" ++ String "034" ">"
               ++ "m.py</span>")%string;
              ("<ul class=" ++ String "034" "nested" ++ String "034" ">")%string ]
         ++ [ "<li><strong>File Docstring:</strong> Module M</li>" ]
         ++ function_nodes
         ++ [ "</ul></li>" ]
         ++ after)%list
      /\ List.length function_nodes = 5.
Proof.
  destruct (build_html sample_parse sample_fs (StrList ["proj"])
              (mk_state ["<html><head><title>Project Documentation</title>"] []))
    as [[[] st]|e] eqn:Hrun; [|vm_compute in Hrun; discriminate Hrun].
  exists st. split; [reflexivity|].
  apply (@file_node_in_tree sample_parse sample_fs
           (StrList ["proj"]) st
           "proj" "proj" ["pkg"] ["m.py"; "notes.txt"] "m.py"
           "Module M" [("add", "Adds two numbers", ["x"; "y"])] Hrun).
  - now left.
  - now left.
  - now left.
  - reflexivity.
  - reflexivity.
  - reflexivity.
Defined.

(** ** Nesting of the lists *)

Lemma nesting_app d l1 l2 :
  nesting d (l1 ++ l2)
  = match nesting d l1 with
    | Some d' => nesting d' l2
    | None => None
    end.
Proof.
  revert d. induction l1 as [|line l1 IH]; intros d; [reflexivity|].
  cbn [app nesting]. destruct (opens_list line); [apply IH|].
  destruct (closes_list line); [|apply IH].
  destruct d; [reflexivity | apply IH].
Qed.

Lemma nesting_neutral d line lines :
  opens_list line = false -> closes_list line = false ->
  nesting d (line :: lines) = nesting d lines.
Proof. intros Ho Hc. cbn [nesting]. now rewrite Ho, Hc. Qed.

Lemma nesting_open d line lines :
  opens_list line = true -> nesting d (line :: lines) = nesting (S d) lines.
Proof. intros Ho. cbn [nesting]. now rewrite Ho. Qed.

Lemma nesting_close d line lines :
  opens_list line = false -> closes_list line = true ->
  nesting (S d) (line :: lines) = nesting d lines.
Proof. intros Ho Hc. cbn [nesting]. now rewrite Ho, Hc. Qed.

(** One element of a node: it opens a list, closes one, or is neither. *)
Ltac nesting_step :=
  first [ rewrite nesting_open by reflexivity
        | rewrite nesting_close by reflexivity
        | rewrite nesting_neutral by reflexivity ].

Lemma keeps_app l1 l2 : keeps l1 -> keeps l2 -> keeps (l1 ++ l2).
Proof. intros H1 H2 d. now rewrite nesting_app, H1, H2. Qed.

Lemma keeps_flat_map {A} (f : A -> list string) l :
  (forall x, keeps (f x)) -> keeps (flat_map f l).
Proof.
  intros H. induction l as [|x l IH]; [intros d; reflexivity|].
  cbn [flat_map]. now apply keeps_app.
Qed.

Lemma keeps_function_node f : keeps (function_node f).
Proof.
  destruct f as [[func_name docstring] params]. intros d.
  unfold function_node. repeat nesting_step. reflexivity.
Qed.

Lemma keeps_flat_item p : keeps (flat_item p).
Proof.
  destruct p as [path [[func_name docstring] params]]. intros d.
  unfold flat_item. repeat nesting_step. reflexivity.
Qed.

Lemma keeps_file_node f : keeps (file_node f).
Proof.
  intros d. unfold file_node. cbn [app]. repeat nesting_step.
  rewrite nesting_app.
  assert (Hdoc : nesting (S d)
            (if nonempty (Model.file_docstring f)
             then [("<li><strong>File Docstring:</strong> "
                    ++ Model.file_docstring f ++ "</li>")%string]
             else []) = Some (S d)).
  { destruct (nonempty (Model.file_docstring f)); [|reflexivity].
    nesting_step. reflexivity. }
  rewrite Hdoc, nesting_app, (keeps_flat_map _ _ keeps_function_node).
  nesting_step. reflexivity.
Qed.

Lemma keeps_directory_node d : keeps (directory_node d).
Proof.
  intros depth. unfold directory_node. cbn [app]. repeat nesting_step.
  rewrite nesting_app, (keeps_flat_map _ _ keeps_file_node).
  nesting_step. reflexivity.
Qed.

Lemma render_nesting entries : nesting 0 (render entries) = Some 0.
Proof.
  unfold render.
  assert (Hp : nesting 0 prologue = Some 1) by (vm_compute; reflexivity).
  assert (Hh : nesting 1 flat_heading = Some 1) by (vm_compute; reflexivity).
  assert (He : nesting 1 epilogue = Some 0) by (vm_compute; reflexivity).
  rewrite nesting_app, Hp.
  rewrite nesting_app. unfold tree_view.
  rewrite (keeps_flat_map _ _ keeps_directory_node).
  rewrite nesting_app, Hh.
  rewrite nesting_app. unfold flat_view.
  rewrite (keeps_flat_map _ _ keeps_flat_item).
  exact He.
Qed.

(** X7.  Whatever the names, paths and docstrings are, the elements
    [generate_html] appends open and close their lists in step: reading
    [html_content] from its first element, no list is closed that is not
    open, and at the end every list is closed. *)
Theorem lists_are_properly_nested ast_parse fs directories st
  (Hrun : build_html ast_parse fs directories
            (mk_state ["<html><head><title>Project Documentation</title>"] [])
          = Ok (tt, st)) :
  nesting 0 (html_content st) = Some 0.
Proof.
  rewrite EffectFacts.build_html_render in Hrun.
  destruct (Model.walk ast_parse fs (iter directories)) as [entries|e];
    [|discriminate Hrun].
  injection Hrun as <-. cbn [html_content]. apply render_nesting.
Qed.

Lemma lists_are_properly_nested_witness :
  exists st,
    build_html sample_parse sample_fs (StrList ["proj"])
      (mk_state ["<html><head><title>Project Documentation</title>"] [])
    = Ok (tt, st) /\
    nesting 0 (html_content st) = Some 0.
Proof.
  destruct (build_html sample_parse sample_fs (StrList ["proj"])
              (mk_state ["<html><head><title>Project Documentation</title>"] []))
    as [[[] st]|e] eqn:Hrun; [|vm_compute in Hrun; discriminate Hrun].
  exists st. split; [reflexivity|].
  exact (@lists_are_properly_nested sample_parse sample_fs
           (StrList ["proj"]) st Hrun).
Defined.

(** ** The label of a directory *)

Lemma rfind_sep_succ_trailing p :
  rfind_sep_succ (p ++ "/") = S (String.length p).
Proof.
  induction p as [|c p IH]; [reflexivity|].
  cbn [append rfind_sep_succ]. now rewrite IH.
Qed.

Lemma drop_all p : drop (S (String.length p)) (p ++ "/") = "".
Proof.
  induction p as [|c p IH]; [reflexivity|].
  cbn [append String.length drop]. exact IH.
Qed.

Lemma basename_trailing_separator p : basename (p ++ "/") = "".
Proof.
  unfold basename. rewrite rfind_sep_succ_trailing. apply drop_all.
Qed.

(** X9.  A directory argument written with a trailing separator, as in
    [proj/], gets an empty label: [os.path.basename] of such a path is
    the empty string, and the caret node of the directory is appended
    with no text. *)
Theorem trailing_separator_gives_empty_label ast_parse fs p st st'
  (Hrun : tree_directory ast_parse fs (p ++ "/") st = Ok (tt, st')) :
  exists rest,
    html_content st'
    = (html_content st
       ++ ("<li><span class=" ++ String "034" "caret" ++ String "034" ">"
           ++ "</span>")%string
       :: ("<ul class=" ++ String "034" "nested" ++ String "034" ">")%string
       :: rest)%list.
Proof.
  rewrite EffectFacts.appends_tree_directory in Hrun.
  unfold directory_effect, directory_entry in Hrun.
  destruct (fspath_check (p ++ "/")); [|discriminate Hrun].
  destruct (traverse (file_entry ast_parse fs (p ++ "/"))
                     (selected fs (p ++ "/"))) as [entries|e];
    [|discriminate Hrun].
  unfold extend, directory_node in Hrun. cbn [name Model.files] in Hrun.
  rewrite basename_trailing_separator in Hrun.
  injection Hrun as <-. cbn [html_content app]. eexists. reflexivity.
Qed.

Lemma trailing_separator_witness :
  exists st',
    tree_directory sample_parse slash_fs ("proj" ++ "/") (mk_state [] [])
    = Ok (tt, st') /\
    exists rest,
      html_content st'
      = ("<li><span class=" ++ String "034" "caret" ++ String "034" ">"
         ++ "</span>")%string
        :: ("<ul class=" ++ String "034" "nested" ++ String "034" ">")%string
        :: rest.
Proof.
  destruct (tree_directory sample_parse slash_fs ("proj" ++ "/")
                           (mk_state [] []))
    as [[[] st']|e] eqn:Hrun; [|vm_compute in Hrun; discriminate Hrun].
  exists st'. split; [reflexivity|].
  exact (@trailing_separator_gives_empty_label sample_parse slash_fs
           "proj" (mk_state [] []) st' Hrun).
Defined.

(** ** Docstrings that are kept as they are *)

(** X10.  A module docstring written on one line, without tab and
    without leading white space, is extracted unchanged: on such a
    literal the cleaning of [ast.get_docstring] does nothing. *)
Theorem one_line_docstring_is_kept ast_parse fs filepath text s rest
  (Hopen : open_r fs filepath = Ok (Ok text))
  (Hparse : ast_parse text = Ok (ExprStr s :: rest))
  (Htab : contains tab s = false)
  (Hline : contains newline s = false)
  (Hstrip : lstrip s = s) :
  get_file_docstring ast_parse fs filepath = Ok s.
Proof.
  rewrite (get_file_docstring_parsed ast_parse fs filepath Hopen Hparse).
  cbn [get_docstring or_empty].
  now rewrite (@cleandoc_one_line s Htab Hline Hstrip).
Qed.

Lemma one_line_docstring_witness :
  open_r one_line_fs "one.py" = Ok (Ok text_one_line) /\
  one_line_parse text_one_line = Ok [ExprStr "Module M"] /\
  get_file_docstring one_line_parse one_line_fs "one.py" = Ok "Module M".
Proof.
  split; [reflexivity|]. split; [reflexivity|].
  exact (@one_line_docstring_is_kept one_line_parse one_line_fs "one.py"
           text_one_line "Module M" [] eq_refl eq_refl eq_refl eq_refl eq_refl).
Defined.
